(** * The assistant front end ([frontend/script.js]) as a state-passing model

    The browser client is a set of event handlers over one shared [state]
    object and a handful of DOM elements.  Every handler runs to completion
    between two [await]s, so each piece of an [async] function between two
    suspension points is modelled as one computation in a state-and-exception
    monad over the client's world: the [state] object, the DOM elements the
    script touches, and the trace of what the script did to the outside
    (requests issued, timers armed, utterances, popups, console lines).

    Strings are byte strings holding UTF-8 text. *)

From Stdlib Require Import String Ascii List ZArith Bool Lia.
From Stdlib Require Import DecimalString.
From Stdlib Require DecimalPos DecimalZ.
Import ListNotations.
Open Scope string_scope.
Open Scope Z_scope.

(** ** Strings as the script uses them *)

Module JsString.

Definition byte_is (n : nat) (c : ascii) : bool := Nat.eqb (nat_of_ascii c) n.

(** One-byte white space and line terminators of [String.prototype.trim]:
    TAB, LF, VT, FF, CR and SPACE. *)
Definition ws1 (c : ascii) : bool :=
  let n := nat_of_ascii c in
  (Nat.leb 9 n && Nat.leb n 13) || Nat.eqb n 32.

(** Third byte of the three-byte white space characters led by [E2 80]:
    U+2000..U+200A, U+2028, U+2029 and U+202F. *)
Definition ws_e2_80 (c : ascii) : bool :=
  let n := nat_of_ascii c in
  (Nat.leb 128 n && Nat.leb n 138) || Nat.eqb n 168 || Nat.eqb n 169
  || Nat.eqb n 175.

(** [ws_prefix l] is [Some rest] when [l] starts with one white space
    character (in UTF-8) followed by [rest]. *)
Definition ws_prefix (l : list ascii) : option (list ascii) :=
  match l with
  | a :: r1 =>
      if ws1 a then Some r1 else
      match r1 with
      | b :: r2 =>
          if byte_is 194 a && byte_is 160 b then Some r2 (* U+00A0 *) else
          match r2 with
          | c :: r3 =>
              if byte_is 225 a && byte_is 154 b && byte_is 128 c then Some r3 (* U+1680 *)
              else if byte_is 226 a && byte_is 128 b && ws_e2_80 c then Some r3
              else if byte_is 226 a && byte_is 129 b && byte_is 159 c then Some r3 (* U+205F *)
              else if byte_is 227 a && byte_is 128 b && byte_is 128 c then Some r3 (* U+3000 *)
              else if byte_is 239 a && byte_is 187 b && byte_is 191 c then Some r3 (* U+FEFF *)
              else None
          | [] => None
          end
      | [] => None
      end
  | [] => None
  end.

(** The same test on a reversed string, for trimming at the end. *)
Definition ws_suffix_rev (l : list ascii) : option (list ascii) :=
  match l with
  | c :: r1 =>
      if ws1 c then Some r1 else
      match r1 with
      | b :: r2 =>
          if byte_is 194 b && byte_is 160 c then Some r2 else
          match r2 with
          | a :: r3 =>
              if byte_is 225 a && byte_is 154 b && byte_is 128 c then Some r3
              else if byte_is 226 a && byte_is 128 b && ws_e2_80 c then Some r3
              else if byte_is 226 a && byte_is 129 b && byte_is 159 c then Some r3
              else if byte_is 227 a && byte_is 128 b && byte_is 128 c then Some r3
              else if byte_is 239 a && byte_is 187 b && byte_is 191 c then Some r3
              else None
          | [] => None
          end
      | [] => None
      end
  | [] => None
  end.

(** Strip white space characters from the front, as long as there is one.
    The fuel is the length of the string: every round removes a byte. *)
Fixpoint strip (pre : list ascii -> option (list ascii)) (fuel : nat)
         (l : list ascii) : list ascii :=
  match fuel with
  | O => l
  | S k => match pre l with
           | Some r => strip pre k r
           | None => l
           end
  end.

Definition trimStart_bytes (l : list ascii) : list ascii :=
  strip ws_prefix (length l) l.

Definition trimEnd_bytes (l : list ascii) : list ascii :=
  rev (strip ws_suffix_rev (length l) (rev l)).

(** [s.trim()] *)
Definition trim (s : string) : string :=
  string_of_list_ascii
    (trimEnd_bytes (trimStart_bytes (list_ascii_of_string s))).

(** ASCII lower-casing; enough for [s.toLowerCase().includes(<ascii>)],
    since no other character lower-cases to a lone ASCII letter of
    "remind". *)
Definition lower_ascii (c : ascii) : ascii :=
  let n := nat_of_ascii c in
  if Nat.leb 65 n && Nat.leb n 90 then ascii_of_nat (n + 32) else c.

Fixpoint toLowerCase (s : string) : string :=
  match s with
  | EmptyString => EmptyString
  | String c r => String (lower_ascii c) (toLowerCase r)
  end.

(** [s.includes(p)] *)
Fixpoint includes (p s : string) : bool :=
  if String.prefix p s then true else
  match s with
  | EmptyString => false
  | String _ r => includes p r
  end.

(** Decimal text of an integer-valued number. *)
Definition of_Z (z : Z) : string := NilZero.string_of_int (Z.to_int z).

End JsString.

(** ** JavaScript values

    What [response.json()] can hand to the script, plus [undefined] for a
    property that is not there.  A [VNum z] stands for the number [z] where
    [z] is a safe integer (below 2^53 in magnitude: reminder ids,
    counters); a [VObj] stands for a plain JSON object, without a [toString]
    property of its own.  Outside of these ToString differs from [Js.toStr]:
    larger numbers are printed rounded or in exponent form, and an object
    with a [toString] that is not a function makes the conversion throw. *)

#[warnings="-register-all"]
Inductive value : Type :=
| VUndefined
| VNull
| VBool (b : bool)
| VNum (z : Z)
| VStr (s : string)
| VArr (elems : list value)
| VObj (props : list (string * value)).

Module Js.

(** ToBoolean *)
Definition truthy (v : value) : bool :=
  match v with
  | VUndefined | VNull => false
  | VBool b => b
  | VNum z => negb (Z.eqb z 0)
  | VStr s => negb (String.eqb s "")
  | VArr _ | VObj _ => true
  end.

(** [a && b] and [a || b] on values. *)
Definition and_ (a b : value) : value := if truthy a then b else a.
Definition or_ (a b : value) : value := if truthy a then a else b.

Fixpoint lookup (k : string) (props : list (string * value)) : value :=
  match props with
  | [] => VUndefined
  | (k', v) :: r => if String.eqb k k' then v else lookup k r
  end.

(** [v.k] for the property names the script reads ([success], [message],
    [response], [error], [components], [microphone], [reminders], [id],
    [time], [text]): a TypeError ([None]) on [null] and [undefined],
    [undefined] on the other primitives and on arrays. *)
Definition getProp (v : value) (k : string) : option value :=
  match v with
  | VUndefined | VNull => None
  | VObj props => Some (lookup k props)
  | _ => Some VUndefined
  end.

(** ToString, as a template literal or [+] with a string applies it, for
    safe integers and plain objects. *)
Fixpoint toStr (v : value) : string :=
  match v with
  | VUndefined => "undefined"
  | VNull => "null"
  | VBool true => "true"
  | VBool false => "false"
  | VNum z => JsString.of_Z z
  | VStr s => s
  | VArr elems =>
      (fix join (l : list value) : string :=
         match l with
         | [] => ""
         | x :: r =>
             let sx := match x with
                       | VUndefined | VNull => ""
                       | _ => toStr x
                       end in
             match r with
             | [] => sx
             | _ :: _ => sx ++ "," ++ join r
             end
         end) elems
  | VObj _ => "[object Object]"
  end.

(** The text a DOM node holds after [node.textContent = v]: [null] and
    [undefined] give the empty text. *)
Definition textContentOf (v : value) : string :=
  match v with
  | VUndefined | VNull => ""
  | _ => toStr v
  end.

(** Serialisation of a text node by [innerHTML]: the ampersand, the two
    angle brackets and the no-break space are replaced by entities. *)
Fixpoint escapeText (s : string) : string :=
  match s with
  | EmptyString => EmptyString
  | String c r =>
      if JsString.byte_is 38 c then "&amp;" ++ escapeText r
      else if JsString.byte_is 60 c then "&lt;" ++ escapeText r
      else if JsString.byte_is 62 c then "&gt;" ++ escapeText r
      else match r with
           | String d r' =>
               if JsString.byte_is 194 c && JsString.byte_is 160 d
               then "&nbsp;" ++ escapeText r'
               else String c (escapeText r)
           | EmptyString => String c EmptyString
           end
  end.

End Js.

(** ** The client's world *)

(** One entry of [state.conversationHistory]. *)
Record Turn : Type := mkTurn {
  user : string;
  assistant : value;
  timestamp : string
}.

(** The [state] object. [reminders] is whatever the last accepted list
    response carried, an array in the ordinary case. *)
Record AppState : Type := mkAppState {
  isListening : bool;
  isProcessing : bool;
  apiConnected : bool;
  conversationHistory : list Turn;
  reminders : value;
  messageCount : Z;
  voiceCount : Z
}.

Inductive Sender : Type := SUser | SAssistant.

(** A child of the chat container: the welcome block (with the flag set
    once its fade-out has started) or a message [div]. *)
Inductive ChatNode : Type :=
| NWelcome (fading : bool)
| NMessage (sender : Sender) (isError : bool) (contentHtml : string).

(** The DOM elements the script reads and writes.  The three elements the
    script tests for [null] before use are optional; the others are taken to
    exist, as [attachEventListeners] already requires of most of them. *)
Record Dom : Type := mkDom {
  userInputValue : string;
  chatContainer : list ChatNode;
  statusText : string;
  statusDotDisconnected : bool;
  loadingText : string;
  loadingShown : bool;
  toastText : string;
  toastClass : string;
  remindersList : option string;
  messageCountEl : option string;
  voiceCountEl : option string;
  voiceBtnListening : bool;
  voiceIcon : string;
  voiceBtnTitle : string
}.

Inductive Method : Type := GET | POST | DELETE.

Inductive Callback : Type :=
| CbToastShow | CbToastHide | CbFetchReminders | CbWelcomeRemove | CbPopupFade
| CbCheckAPIHealth | CbCheckReminderAlerts | CbRotateHint.

Inductive LogLevel : Type := LLog | LWarn | LError.

(** What the script does to the outside, in the order it does it.  A call of
    [recognition.start()] is recorded by [ERecognitionStart] when it returns
    (a capture session is running from then on) and by
    [ERecognitionStartThrew] when it throws. *)
Inductive Effect : Type :=
| EFetch (m : Method) (url : string) (body : option value)
| ESetTimeout (cb : Callback) (ms : Z)
| ESetInterval (cb : Callback) (ms : Z)
| EConsole (level : LogLevel) (msg : string)
| EToast (message : string) (type : string)
| EPopup (text : string)
| ESpeechCancel
| ESpeak (text : string)
| ERecognitionStart
| ERecognitionStartThrew.

Record World : Type := mkWorld {
  app : AppState;
  dom : Dom;
  recognition : bool;          (* [recognition !== null] *)
  trace : list Effect
}.

(** What the host platform offers; fixed for a page load. *)
Record Env : Type := mkEnv {
  hasSpeechRecognition : bool;   (* [SpeechRecognition !== null] *)
  hasSpeechSynthesis : bool      (* ["speechSynthesis" in window] *)
}.

(** ** A state-and-exception monad for handler code *)

Inductive Result (A : Type) : Type :=
| Ok (a : A)
| Thrown (what : string).
Arguments Ok {A} a.
Arguments Thrown {A} what.

Definition M (A : Type) : Type := World -> Result A * World.

Definition ret {A} (a : A) : M A := fun w => (Ok a, w).

Definition bind {A B} (m : M A) (k : A -> M B) : M B :=
  fun w => match m w with
           | (Ok a, w') => k a w'
           | (Thrown e, w') => (Thrown e, w')
           end.

Definition throw {A} (e : string) : M A := fun w => (Thrown e, w).

(** [try { body } catch (e) { handler }] *)
Definition try_catch {A} (body : M A) (handler : M A) : M A :=
  fun w => match body w with
           | (Ok a, w') => (Ok a, w')
           | (Thrown _, w') => handler w'
           end.

(** [try { body } finally { cleanup }], for a [cleanup] that does not throw. *)
Definition try_finally {A} (body : M A) (cleanup : M unit) : M A :=
  fun w => match body w with
           | (r, w') => (r, snd (cleanup w'))
           end.

Definition gets {A} (f : World -> A) : M A := fun w => (Ok (f w), w).
Definition modify (f : World -> World) : M unit := fun w => (Ok tt, f w).

(** [o] is the value of an expression that throws when [o] is [None]. *)
Definition orThrow {A} (o : option A) (e : string) : M A :=
  match o with Some a => ret a | None => throw e end.

Definition when_ (b : bool) (m : M unit) : M unit := if b then m else ret tt.

(** The world a handler leaves behind. *)
Definition exec {A} (m : M A) (w : World) : World := snd (m w).

Declare Scope js_scope.
Delimit Scope js_scope with js.
Notation "x <- m ;; k" := (bind m (fun x => k))
  (at level 61, m at next level, right associativity) : js_scope.
Notation "m ;; k" := (bind m (fun _ => k))
  (at level 61, right associativity) : js_scope.
Open Scope js_scope.

(** *** Field updates *)

Definition updApp (f : AppState -> AppState) (w : World) : World :=
  mkWorld (f (app w)) (dom w) (recognition w) (trace w).
Definition updDom (f : Dom -> Dom) (w : World) : World :=
  mkWorld (app w) (f (dom w)) (recognition w) (trace w).
Definition setRecognition (b : bool) (w : World) : World :=
  mkWorld (app w) (dom w) b (trace w).
Definition emitW (e : Effect) (w : World) : World :=
  mkWorld (app w) (dom w) (recognition w) (trace w ++ [e]).

Definition set_isListening (b : bool) (a : AppState) : AppState :=
  mkAppState b (isProcessing a) (apiConnected a) (conversationHistory a)
             (reminders a) (messageCount a) (voiceCount a).
Definition set_isProcessing (b : bool) (a : AppState) : AppState :=
  mkAppState (isListening a) b (apiConnected a) (conversationHistory a)
             (reminders a) (messageCount a) (voiceCount a).
Definition set_apiConnected (b : bool) (a : AppState) : AppState :=
  mkAppState (isListening a) (isProcessing a) b (conversationHistory a)
             (reminders a) (messageCount a) (voiceCount a).
Definition set_conversationHistory (h : list Turn) (a : AppState) : AppState :=
  mkAppState (isListening a) (isProcessing a) (apiConnected a) h
             (reminders a) (messageCount a) (voiceCount a).
Definition set_reminders (r : value) (a : AppState) : AppState :=
  mkAppState (isListening a) (isProcessing a) (apiConnected a)
             (conversationHistory a) r (messageCount a) (voiceCount a).
Definition set_messageCount (n : Z) (a : AppState) : AppState :=
  mkAppState (isListening a) (isProcessing a) (apiConnected a)
             (conversationHistory a) (reminders a) n (voiceCount a).
Definition set_voiceCount (n : Z) (a : AppState) : AppState :=
  mkAppState (isListening a) (isProcessing a) (apiConnected a)
             (conversationHistory a) (reminders a) (messageCount a) n.

Definition set_userInputValue (v : string) (d : Dom) : Dom :=
  mkDom v (chatContainer d) (statusText d) (statusDotDisconnected d)
        (loadingText d) (loadingShown d) (toastText d) (toastClass d)
        (remindersList d) (messageCountEl d) (voiceCountEl d)
        (voiceBtnListening d) (voiceIcon d) (voiceBtnTitle d).
Definition set_chatContainer (c : list ChatNode) (d : Dom) : Dom :=
  mkDom (userInputValue d) c (statusText d) (statusDotDisconnected d)
        (loadingText d) (loadingShown d) (toastText d) (toastClass d)
        (remindersList d) (messageCountEl d) (voiceCountEl d)
        (voiceBtnListening d) (voiceIcon d) (voiceBtnTitle d).
Definition set_status (t : string) (disc : bool) (d : Dom) : Dom :=
  mkDom (userInputValue d) (chatContainer d) t disc
        (loadingText d) (loadingShown d) (toastText d) (toastClass d)
        (remindersList d) (messageCountEl d) (voiceCountEl d)
        (voiceBtnListening d) (voiceIcon d) (voiceBtnTitle d).
Definition set_loadingText (t : string) (d : Dom) : Dom :=
  mkDom (userInputValue d) (chatContainer d) (statusText d)
        (statusDotDisconnected d) t (loadingShown d) (toastText d)
        (toastClass d) (remindersList d) (messageCountEl d) (voiceCountEl d)
        (voiceBtnListening d) (voiceIcon d) (voiceBtnTitle d).
Definition set_loadingShown (b : bool) (d : Dom) : Dom :=
  mkDom (userInputValue d) (chatContainer d) (statusText d)
        (statusDotDisconnected d) (loadingText d) b (toastText d)
        (toastClass d) (remindersList d) (messageCountEl d) (voiceCountEl d)
        (voiceBtnListening d) (voiceIcon d) (voiceBtnTitle d).
Definition set_toast (t c : string) (d : Dom) : Dom :=
  mkDom (userInputValue d) (chatContainer d) (statusText d)
        (statusDotDisconnected d) (loadingText d) (loadingShown d) t c
        (remindersList d) (messageCountEl d) (voiceCountEl d)
        (voiceBtnListening d) (voiceIcon d) (voiceBtnTitle d).
Definition set_remindersList (h : option string) (d : Dom) : Dom :=
  mkDom (userInputValue d) (chatContainer d) (statusText d)
        (statusDotDisconnected d) (loadingText d) (loadingShown d)
        (toastText d) (toastClass d) h (messageCountEl d) (voiceCountEl d)
        (voiceBtnListening d) (voiceIcon d) (voiceBtnTitle d).
Definition set_counters (m v : option string) (d : Dom) : Dom :=
  mkDom (userInputValue d) (chatContainer d) (statusText d)
        (statusDotDisconnected d) (loadingText d) (loadingShown d)
        (toastText d) (toastClass d) (remindersList d) m v
        (voiceBtnListening d) (voiceIcon d) (voiceBtnTitle d).
Definition set_voiceBtn (l : bool) (icon title : string) (d : Dom) : Dom :=
  mkDom (userInputValue d) (chatContainer d) (statusText d)
        (statusDotDisconnected d) (loadingText d) (loadingShown d)
        (toastText d) (toastClass d) (remindersList d) (messageCountEl d)
        (voiceCountEl d) l icon title.

Definition emit (e : Effect) : M unit := modify (emitW e).
Definition setApp (f : AppState -> AppState) : M unit := modify (updApp f).
Definition setDom (f : Dom -> Dom) : M unit := modify (updDom f).

(** ** The script *)

Module Config.
Definition API_BASE_URL : string := "http://localhost:5000".
Definition PROCESS : string := "/process".
Definition HISTORY : string := "/history".
Definition HEALTH : string := "/health".
Definition REMINDERS : string := "/reminders".
Definition TRIGGER_POPUP : string := "/trigger_popup".
Definition POLLING_INTERVAL : Z := 5000.
Definition REMINDER_ALERT_INTERVAL : Z := 4000.
End Config.

(** How an awaited [fetch] followed by [response.json()] comes back: the
    request is rejected, or a response arrives with its [ok] flag and a body
    that parses as JSON ([Some]) or does not ([None]). *)
Inductive FetchOutcome : Type :=
| NetworkError
| Response (ok : bool) (body : option value).

Definition dq : string := String (ascii_of_nat 34) EmptyString.
Definition nl : string := String (ascii_of_nat 10) EmptyString.

Section Script.

Variable env : Env.

(** *** UI helpers *)

Definition showLoading (text : string) : M unit :=
  setDom (set_loadingText text) ;;
  setDom (set_loadingShown true).

Definition hideLoading : M unit := setDom (set_loadingShown false).

Definition showToast (message type : string) : M unit :=
  setDom (set_toast message ("toast " ++ type)) ;;
  emit (EToast message type) ;;
  emit (ESetTimeout CbToastShow 10) ;;
  emit (ESetTimeout CbToastHide 4000).

Definition escapeHtml (text : value) : string :=
  Js.escapeText (Js.textContentOf text).

Definition updateVoiceButton (listening : bool) : M unit :=
  if listening
  then setDom (set_voiceBtn true "🔴" "Listening...")
  else setDom (set_voiceBtn false "🎤" "Voice input").

Definition updateStats : M unit :=
  m <- gets (fun w => messageCount (app w)) ;;
  v <- gets (fun w => voiceCount (app w)) ;;
  setDom (fun d =>
    set_counters
      (match messageCountEl d with Some _ => Some (JsString.of_Z m) | None => None end)
      (match voiceCountEl d with Some _ => Some (JsString.of_Z v) | None => None end)
      d).

(** *** Speech *)

Definition speakText (text : value) : M unit :=
  if negb (hasSpeechSynthesis env) then
    emit (EConsole LWarn "Browser TTS not supported")
  else if negb (Js.truthy text) then ret tt
  else match text with
       | VStr s =>
           if String.eqb (JsString.trim s) "" then ret tt
           else emit ESpeechCancel ;; emit (ESpeak s)
       | _ => throw "TypeError: text.trim is not a function"
       end.

Definition initSpeechRecognition : M unit :=
  if negb (hasSpeechRecognition env) then ret tt
  else modify (setRecognition true).

(** *** Chat rendering *)

Definition addMessageToChat (message : value) (sender : Sender)
           (isError : bool) : M unit :=
  setDom (fun d =>
    set_chatContainer
      (chatContainer d ++ [NMessage sender isError (escapeHtml message)]) d).

Definition isWelcome (n : ChatNode) : bool :=
  match n with NWelcome _ => true | NMessage _ _ _ => false end.

Fixpoint fadeFirstWelcome (c : list ChatNode) : list ChatNode :=
  match c with
  | [] => []
  | NWelcome _ :: r => NWelcome true :: r
  | n :: r => n :: fadeFirstWelcome r
  end.

Definition removeWelcomeMessage : M unit :=
  c <- gets (fun w => chatContainer (dom w)) ;;
  when_ (existsb isWelcome c)
    (setDom (set_chatContainer (fadeFirstWelcome c)) ;;
     emit (ESetTimeout CbWelcomeRemove 300)).

(** *** API health *)

Definition updateConnectionStatus (connected : bool) (text : string) : M unit :=
  setApp (set_apiConnected connected) ;;
  setDom (set_status text (negb connected)).

Definition checkAPIHealth_start : M unit :=
  emit (EFetch GET (Config.API_BASE_URL ++ Config.HEALTH) None).

Definition isNotDetected (v : value) : bool :=
  match v with VStr s => String.eqb s "not detected" | _ => false end.

Definition checkAPIHealth_settle (o : FetchOutcome) : M unit :=
  try_catch
    (match o with
     | NetworkError => throw "fetch rejected"
     | Response true body =>
         data <- orThrow body "response.json() rejected" ;;
         updateConnectionStatus true "Connected" ;;
         components <- orThrow (Js.getProp data "components") "TypeError" ;;
         viaComponents <-
           (if Js.truthy components
            then orThrow (Js.getProp components "microphone") "TypeError"
            else ret components) ;;
         micStatus <-
           (if Js.truthy viaComponents then ret viaComponents
            else orThrow (Js.getProp data "microphone") "TypeError") ;;
         when_ (isNotDetected micStatus)
           (showToast
              "⚠️ Microphone not detected on server. Backend voice may not work."
              "warning")
     | Response false _ =>
         updateConnectionStatus false "Connection Error"
     end)
    (emit (EConsole LError "Health check failed:") ;;
     updateConnectionStatus false "Disconnected" ;;
     showToast
       "❌ Cannot connect to server. Make sure the backend is running on port 5000."
       "error").

(** *** Reminders (sidebar) *)

Definition emptyStateHtml : string :=
  "<p class=" ++ dq ++ "empty-state" ++ dq ++ ">No active reminders</p>".

(** The template literal of one row, with the three interpolated texts. *)
Definition reminderRow (time id text : string) : string :=
  nl ++
  "        <div class=" ++ dq ++ "reminder-item" ++ dq ++ ">" ++ nl ++
  "            <div class=" ++ dq ++ "reminder-header" ++ dq ++ ">" ++ nl ++
  "                <span class=" ++ dq ++ "reminder-time" ++ dq ++ ">" ++ time ++ "</span>" ++ nl ++
  "                <button class=" ++ dq ++ "reminder-delete" ++ dq ++
    " onclick=" ++ dq ++ "deleteReminder(" ++ id ++ ")" ++ dq ++
    " title=" ++ dq ++ "Delete reminder" ++ dq ++ ">" ++ nl ++
  "                    ✕" ++ nl ++
  "                </button>" ++ nl ++
  "            </div>" ++ nl ++
  "            <div class=" ++ dq ++ "reminder-text" ++ dq ++ ">" ++ text ++ "</div>" ++ nl ++
  "        </div>" ++ nl ++
  "    ".

(** The arrow function given to [map]: [None] when reading a property of
    the element throws. *)
Definition renderReminder (r : value) : option string :=
  match Js.getProp r "time", Js.getProp r "id", Js.getProp r "text" with
  | Some time, Some id, Some text =>
      Some (reminderRow (Js.toStr time) (Js.toStr id) (escapeHtml text))
  | _, _, _ => None
  end.

(** [arr.map(renderReminder).join("")] *)
Fixpoint renderRows (l : list value) : option string :=
  match l with
  | [] => Some ""
  | r :: rest =>
      match renderReminder r, renderRows rest with
      | Some row, Some more => Some (row ++ more)
      | _, _ => None
      end
  end.

(** Truthiness of [v.length]; [None] when reading it throws. *)
Definition hasLength (v : value) : option bool :=
  match v with
  | VUndefined | VNull => None
  | VArr l => Some (negb (Nat.eqb (List.length l) 0))
  | VStr s => Some (negb (String.eqb s ""))
  | VObj props => Some (Js.truthy (Js.lookup "length" props))
  | VBool _ | VNum _ => Some false
  end.

Definition updateRemindersUI : M unit :=
  el <- gets (fun w => remindersList (dom w)) ;;
  match el with
  | None => ret tt
  | Some _ =>
      cache <- gets (fun w => reminders (app w)) ;;
      nonEmpty <- orThrow (hasLength cache) "TypeError" ;;
      if negb nonEmpty then
        setDom (set_remindersList (Some emptyStateHtml))
      else
        match cache with
        | VArr l =>
            html <- orThrow (renderRows l) "TypeError" ;;
            setDom (set_remindersList (Some html))
        | _ => throw "TypeError: state.reminders.map is not a function"
        end
  end.

(** [fetchReminders] up to its first [await]. *)
Definition fetchReminders_start : M unit :=
  connected <- gets (fun w => apiConnected (app w)) ;;
  if negb connected then ret tt
  else emit (EFetch GET (Config.API_BASE_URL ++ Config.REMINDERS) None).

Definition fetchReminders_settle (o : FetchOutcome) : M unit :=
  try_catch
    (match o with
     | NetworkError => throw "fetch rejected"
     | Response true body =>
         data <- orThrow body "response.json() rejected" ;;
         success <- orThrow (Js.getProp data "success") "TypeError" ;;
         when_ (Js.truthy success)
           (listed <- orThrow (Js.getProp data "reminders") "TypeError" ;;
            setApp (set_reminders (Js.or_ listed (VArr []))) ;;
            updateRemindersUI)
     | Response false _ => ret tt
     end)
    (emit (EConsole LError "Error fetching reminders:")).

Definition deleteReminder_start (reminderId : value) : M unit :=
  emit (EFetch DELETE
          (Config.API_BASE_URL ++ Config.REMINDERS ++ "/" ++ Js.toStr reminderId)
          None).

Definition deleteReminder_settle (o : FetchOutcome) : M unit :=
  match o with
  | NetworkError =>
      emit (EConsole LError "Error deleting reminder:") ;;
      showToast "❌ Error deleting reminder" "error"
  | Response true _ =>
      showToast "✅ Reminder deleted" "success" ;;
      fetchReminders_start
  | Response false _ =>
      showToast "❌ Failed to delete reminder" "error"
  end.

(** *** Reminder popup and voice alerts *)

Definition showReminderPopup (message : value) : M unit :=
  emit (EPopup ("⏰ Reminder: " ++ Js.toStr message)) ;;
  emit (ESetTimeout CbPopupFade 5000).

Definition checkReminderAlerts_start : M unit :=
  emit (EFetch GET (Config.API_BASE_URL ++ Config.TRIGGER_POPUP) None).

Definition checkReminderAlerts_settle (o : FetchOutcome) : M unit :=
  try_catch
    (match o with
     | NetworkError => throw "fetch rejected"
     | Response _ body =>
         data <- orThrow body "res.json() rejected" ;;
         success <- orThrow (Js.getProp data "success") "TypeError" ;;
         if Js.truthy success then
           message <- orThrow (Js.getProp data "message") "TypeError" ;;
           when_ (Js.truthy message)
             (emit (EConsole LLog "Reminder Popup Triggered:") ;;
              showReminderPopup message ;;
              speakText (VStr ("Reminder: " ++ Js.toStr message)) ;;
              showToast ("⏰ " ++ Js.toStr message) "warning")
         else ret tt
     end)
    (emit (EConsole LError "Popup polling error:")).

(** *** Text message flow *)

(** [processCommand] up to [await fetch(...)]. *)
Definition processCommand_start (command : string) : M unit :=
  setApp (set_isProcessing true) ;;
  showLoading "🤔 Processing..." ;;
  emit (EFetch POST (Config.API_BASE_URL ++ Config.PROCESS)
               (Some (VObj [("command", VStr command)]))).

Definition processCommand_catch : M unit :=
  emit (EConsole LError "Command processing error:") ;;
  hideLoading ;;
  addMessageToChat
    (VStr "Sorry, I could not connect to the server. Please check if the backend is running.")
    SAssistant true ;;
  showToast "❌ Connection error" "error".

Definition processCommand_finally : M unit :=
  setApp (set_isProcessing false).

(** The [fetch] is rejected: [catch], then [finally]. *)
Definition processCommand_rejected : M unit :=
  try_finally processCommand_catch processCommand_finally.

(** The [fetch] is fulfilled: up to [await response.json()]. *)
Definition processCommand_fulfilled : M unit := hideLoading.

(** From the settling of [response.json()] to the end; [now] is what
    [new Date().toISOString()] returns. *)
Definition processCommand_body (command now : string) (body : option value)
  : M unit :=
  try_finally
    (try_catch
       (data <- orThrow body "response.json() rejected" ;;
        success <- orThrow (Js.getProp data "success") "TypeError" ;;
        if Js.truthy success then
          response <- orThrow (Js.getProp data "response") "TypeError" ;;
          addMessageToChat response SAssistant false ;;
          setApp (fun a =>
            set_conversationHistory
              (conversationHistory a ++ [mkTurn command response now]) a) ;;
          when_ (JsString.includes "remind" (JsString.toLowerCase command))
            (emit (ESetTimeout CbFetchReminders 1000))
        else
          addMessageToChat
            (VStr "Sorry, I encountered an error processing your request.")
            SAssistant true ;;
          error <- orThrow (Js.getProp data "error") "TypeError" ;;
          showToast
            ("❌ " ++ Js.toStr (Js.or_ error (VStr "Processing failed")))
            "error")
       processCommand_catch)
    processCommand_finally.

(** Everything [processCommand] does after its request settles, when no
    other handler runs in between. *)
Definition processCommand_settle (command now : string) (o : FetchOutcome)
  : M unit :=
  match o with
  | NetworkError => processCommand_rejected
  | Response _ body =>
      processCommand_fulfilled ;; processCommand_body command now body
  end.

(** [handleSendMessage], which runs into [processCommand] up to the
    latter's first [await]. *)
Definition handleSendMessage : M unit :=
  raw <- gets (fun w => userInputValue (dom w)) ;;
  let message := JsString.trim raw in
  if String.eqb message "" then
    showToast "⚠️ Please enter a message" "warning"
  else
    connected <- gets (fun w => apiConnected (app w)) ;;
    if negb connected then
      showToast "❌ Not connected to server" "error"
    else
      busy <- gets (fun w => isProcessing (app w)) ;;
      if busy then ret tt
      else
        setDom (set_userInputValue "") ;;
        addMessageToChat (VStr message) SUser false ;;
        removeWelcomeMessage ;;
        setApp (fun a => set_messageCount (messageCount a + 1) a) ;;
        updateStats ;;
        processCommand_start message.

Definition sendQuickCommand (command : string) : M unit :=
  setDom (set_userInputValue command) ;;
  handleSendMessage.

(** The [keypress] listener of the input box. *)
Definition onKeypress (key : string) : M unit :=
  busy <- gets (fun w => isProcessing (app w)) ;;
  if String.eqb key "Enter" && negb busy then handleSendMessage else ret tt.

(** *** Voice input flow *)

(** The click handler of the voice button; [startThrows] tells whether
    [recognition.start()] throws. *)
Definition handleVoiceInput (startThrows : bool) : M unit :=
  if negb (hasSpeechRecognition env) then
    showToast
      "❌ Voice input not supported in this browser. Use Chrome or Edge desktop."
      "error"
  else
    connected <- gets (fun w => apiConnected (app w)) ;;
    if negb connected then
      showToast "❌ Not connected to server" "error"
    else
      listening <- gets (fun w => isListening (app w)) ;;
      if listening then
        showToast "⚠️ Already listening..." "warning"
      else
        have <- gets recognition ;;
        when_ (negb have) initSpeechRecognition ;;
        setApp (set_isListening true) ;;
        updateVoiceButton true ;;
        showLoading "🎤 Listening... Speak now" ;;
        try_catch
          (if startThrows
           then emit ERecognitionStartThrew ;; throw "recognition.start() threw"
           else emit ERecognitionStart)
          (hideLoading ;;
           setApp (set_isListening false) ;;
           updateVoiceButton false ;;
           emit (EConsole LError "Recognition start failed:") ;;
           showToast "❌ Could not start voice recognition" "error").

(** [recognition.onresult] up to [await processCommand(transcript)], that
    is up to the first [await] inside [processCommand]. *)
Definition onresult_start (rawTranscript : string) : M unit :=
  hideLoading ;;
  let transcript := JsString.trim rawTranscript in
  emit (EConsole LLog "🎙 Recognized:") ;;
  if String.eqb transcript "" then
    showToast "⚠️ No speech detected. Please try again." "warning"
  else
    removeWelcomeMessage ;;
    addMessageToChat (VStr transcript) SUser false ;;
    setApp (fun a => set_messageCount (messageCount a + 1) a) ;;
    setApp (fun a => set_voiceCount (voiceCount a + 1) a) ;;
    updateStats ;;
    processCommand_start transcript.

(** [arr[arr.length - 1]], [None] standing for [undefined]. *)
Fixpoint lastOf {A : Type} (l : list A) : option A :=
  match l with
  | [] => None
  | [x] => Some x
  | _ :: r => lastOf r
  end.

(** [recognition.onresult] after [processCommand] has returned. *)
Definition onresult_resume : M unit :=
  history <- gets (fun w => conversationHistory (app w)) ;;
  match lastOf history with
  | None => ret tt
  | Some last =>
      if Js.truthy (assistant last) then speakText (assistant last)
      else ret tt
  end.

Definition onerror (error : string) : M unit :=
  hideLoading ;;
  emit (EConsole LWarn "STT error:") ;;
  if String.eqb error "no-speech" then
    showToast "⚠️ No speech detected. Please try again." "warning"
  else if String.eqb error "audio-capture" then
    showToast "⚠️ No microphone available or access denied." "warning"
  else
    showToast ("❌ Voice recognition error: " ++ error) "error".

Definition onend : M unit :=
  setApp (set_isListening false) ;;
  updateVoiceButton false ;;
  shown <- gets (fun w => loadingShown (dom w)) ;;
  when_ shown hideLoading.

(** *** Clear conversation *)

(** [confirmed] is the answer to the [confirm] dialog. *)
Definition handleClearConversation_start (confirmed : bool) : M unit :=
  if negb confirmed then ret tt
  else emit (EFetch DELETE (Config.API_BASE_URL ++ Config.HISTORY) None).

Definition handleClearConversation_settle (o : FetchOutcome) : M unit :=
  match o with
  | NetworkError =>
      emit (EConsole LError "Clear conversation error:") ;;
      showToast "❌ Error clearing conversation" "error"
  | Response true _ =>
      setApp (set_conversationHistory []) ;;
      setApp (set_messageCount 0) ;;
      setApp (set_voiceCount 0) ;;
      updateStats ;;
      setDom (set_chatContainer [NWelcome false]) ;;
      showToast "✅ Conversation cleared" "success"
  | Response false _ =>
      showToast "❌ Failed to clear conversation" "error"
  end.

(** *** Initialization *)

Definition startReminderPolling : M unit :=
  fetchReminders_start ;;
  emit (ESetInterval CbFetchReminders Config.POLLING_INTERVAL).

Definition startReminderAlertPolling : M unit :=
  emit (ESetInterval CbCheckReminderAlerts Config.REMINDER_ALERT_INTERVAL).

(** The [DOMContentLoaded] listener, up to the first [await] of the
    functions it starts. *)
Definition onDOMContentLoaded : M unit :=
  emit (ESetInterval CbCheckAPIHealth 30000) ;;
  initSpeechRecognition ;;
  when_ (negb (hasSpeechRecognition env))
    (emit (EConsole LWarn "Web Speech API not supported in this browser.")) ;;
  checkAPIHealth_start ;;
  startReminderPolling ;;
  startReminderAlertPolling ;;
  updateStats ;;
  emit (ESetInterval CbRotateHint 8000).

(** *** The event loop

    One event is one turn of the loop: a user action, a timer tick, or the
    settling of something a handler awaits.  The events that resume
    [processCommand] carry what its closure holds: the command, and
    whether [recognition.onresult] is the caller waiting for it. *)

Inductive Event : Type :=
| EvLoad
| EvTickHealth
| EvHealthSettled (o : FetchOutcome)
| EvInput (text : string)
| EvClickSend
| EvKeypress (key : string)
| EvQuickCommand (command : string)
| EvCommandRejected (viaVoice : bool)
| EvCommandFulfilled
| EvCommandBody (command now : string) (body : option value) (viaVoice : bool)
| EvClickVoice (startThrows : bool)
| EvRecognitionResult (rawTranscript : string)
| EvRecognitionError (error : string)
| EvRecognitionEnd
| EvClickClear (confirmed : bool)
| EvClearSettled (o : FetchOutcome)
| EvTickReminders
| EvRemindersSettled (o : FetchOutcome)
| EvClickDelete (reminderId : value)
| EvDeleteSettled (o : FetchOutcome)
| EvTickAlerts
| EvAlertsSettled (o : FetchOutcome).

Definition handler (e : Event) : M unit :=
  match e with
  | EvLoad => onDOMContentLoaded
  | EvTickHealth => checkAPIHealth_start
  | EvHealthSettled o => checkAPIHealth_settle o
  | EvInput text => setDom (set_userInputValue text)
  | EvClickSend => handleSendMessage
  | EvKeypress key => onKeypress key
  | EvQuickCommand command => sendQuickCommand command
  | EvCommandRejected viaVoice =>
      processCommand_rejected ;; when_ viaVoice onresult_resume
  | EvCommandFulfilled => processCommand_fulfilled
  | EvCommandBody command now body viaVoice =>
      processCommand_body command now body ;; when_ viaVoice onresult_resume
  | EvClickVoice startThrows => handleVoiceInput startThrows
  | EvRecognitionResult raw => onresult_start raw
  | EvRecognitionError error => onerror error
  | EvRecognitionEnd => onend
  | EvClickClear confirmed => handleClearConversation_start confirmed
  | EvClearSettled o => handleClearConversation_settle o
  | EvTickReminders => fetchReminders_start
  | EvRemindersSettled o => fetchReminders_settle o
  | EvClickDelete reminderId => deleteReminder_start reminderId
  | EvDeleteSettled o => deleteReminder_settle o
  | EvTickAlerts => checkReminderAlerts_start
  | EvAlertsSettled o => checkReminderAlerts_settle o
  end.

Definition step (w : World) (e : Event) : World := exec (handler e) w.

Definition run (es : list Event) (w : World) : World := fold_left step es w.

End Script.

(** The [state] object as the script declares it. *)
Definition initialApp : AppState :=
  mkAppState false false false [] (VArr []) 0 0.

(** The page before the script runs.  [index.html] is not among the sources;
    the page is taken to hold every element the script looks up, an empty
    input box and the welcome block the script itself restores on clear. *)
Definition initialDom : Dom :=
  mkDom "" [NWelcome false] "" false "" false "" "" (Some "") (Some "")
        (Some "") false "" "".

Definition initialWorld : World := mkWorld initialApp initialDom false [].

(** ** Reading a trace *)

Definition isFetch (e : Effect) : bool :=
  match e with EFetch _ _ _ => true | _ => false end.
Definition isCommandFetch (e : Effect) : bool :=
  match e with
  | EFetch POST url _ => String.eqb url (Config.API_BASE_URL ++ Config.PROCESS)
  | _ => false
  end.
Definition isToast (e : Effect) : bool :=
  match e with EToast _ _ => true | _ => false end.
Definition isToastOf (type : string) (e : Effect) : bool :=
  match e with EToast _ t => String.eqb t type | _ => false end.
Definition isPopup (e : Effect) : bool :=
  match e with EPopup _ => true | _ => false end.
Definition isSpeak (e : Effect) : bool :=
  match e with ESpeak _ => true | _ => false end.

Definition count (p : Effect -> bool) (t : list Effect) : nat :=
  List.length (List.filter p t).

(** The effects a handler added to the trace it started from. *)
Definition added (before after : list Effect) : list Effect :=
  List.skipn (List.length before) after.

(** ** White space, by the table

    The white space and line terminator characters [trim] removes, each in
    its UTF-8 encoding. *)

Definition bytes (l : list nat) : list ascii := List.map ascii_of_nat l.

Definition ws_chars : list (list ascii) :=
  List.map bytes
    [ [9]; [10]; [11]; [12]; [13]; [32];          (* TAB LF VT FF CR SP *)
      [194; 160];                                 (* U+00A0 *)
      [225; 154; 128];                            (* U+1680 *)
      [226; 128; 128]; [226; 128; 129]; [226; 128; 130]; [226; 128; 131];
      [226; 128; 132]; [226; 128; 133]; [226; 128; 134]; [226; 128; 135];
      [226; 128; 136]; [226; 128; 137]; [226; 128; 138];   (* U+2000..U+200A *)
      [226; 128; 168]; [226; 128; 169];           (* U+2028 U+2029 *)
      [226; 128; 175];                            (* U+202F *)
      [226; 129; 159];                            (* U+205F *)
      [227; 128; 128];                            (* U+3000 *)
      [239; 187; 191] ]%nat.                      (* U+FEFF *)

(** A text made of white space characters only (the empty text included). *)
Inductive WhitespaceOnly : list ascii -> Prop :=
| ws_nil : WhitespaceOnly []
| ws_cons : forall c rest,
    In c ws_chars -> WhitespaceOnly rest -> WhitespaceOnly (c ++ rest)%list.

Fixpoint dropPrefix (p l : list ascii) : option (list ascii) :=
  match p, l with
  | [], _ => Some l
  | a :: p', b :: l' => if Ascii.eqb a b then dropPrefix p' l' else None
  | _ :: _, [] => None
  end.

Fixpoint dropAny (table : list (list ascii)) (l : list ascii)
  : option (list ascii) :=
  match table with
  | [] => None
  | c :: more => match dropPrefix c l with
                 | Some r => Some r
                 | None => dropAny more l
                 end
  end.

Fixpoint whitespaceOnlyb (fuel : nat) (l : list ascii) : bool :=
  match l, fuel with
  | [], _ => true
  | _, O => false
  | _, S k => match dropAny ws_chars l with
              | Some r => whitespaceOnlyb k r
              | None => false
              end
  end.

(** The decidable form, on strings. *)
Definition isBlank (s : string) : bool :=
  whitespaceOnlyb (String.length s) (list_ascii_of_string s).

(** ** The vocabulary of the properties *)

(** A request that only needs a 2xx answer (delete a reminder, clear the
    history) failed: it was rejected, or answered with another status. *)
Definition deleteFailed (o : FetchOutcome) : bool :=
  match o with
  | NetworkError => true
  | Response ok _ => negb ok
  end.

(** The message of a poll response that fires the alert: the body is a JSON
    object whose [success] and [message] are both truthy. *)
Definition firedMessage (o : FetchOutcome) : option value :=
  match o with
  | Response _ (Some (VObj props)) =>
      if Js.truthy (Js.lookup "success" props)
         && Js.truthy (Js.lookup "message" props)
      then Some (Js.lookup "message" props)
      else None
  | _ => None
  end.

(** What the alert adds to the trace. *)
Definition alertEffects (env : Env) (m : value) : list Effect :=
  [EConsole LLog "Reminder Popup Triggered:";
   EPopup ("⏰ Reminder: " ++ Js.toStr m);
   ESetTimeout CbPopupFade 5000]
  ++ (if hasSpeechSynthesis env
      then [ESpeechCancel; ESpeak ("Reminder: " ++ Js.toStr m)]
      else [EConsole LWarn "Browser TTS not supported"])
  ++ [EToast ("⏰ " ++ Js.toStr m) "warning";
      ESetTimeout CbToastShow 10; ESetTimeout CbToastHide 4000].

(** The warning shown for a blank command. *)
Definition pleaseEnter : list Effect :=
  [EToast "⚠️ Please enter a message" "warning";
   ESetTimeout CbToastShow 10; ESetTimeout CbToastHide 4000].

(** A health response of a running backend. *)
Definition healthy : FetchOutcome :=
  Response true (Some (VObj [("status", VStr "ok")])).

(** The two error notifications that stop an action before any request. *)
Definition notConnected : list Effect :=
  [EToast "❌ Not connected to server" "error";
   ESetTimeout CbToastShow 10; ESetTimeout CbToastHide 4000].

Definition voiceUnsupported : list Effect :=
  [EToast "❌ Voice input not supported in this browser. Use Chrome or Edge desktop."
          "error";
   ESetTimeout CbToastShow 10; ESetTimeout CbToastHide 4000].

(** The send handler goes through: the text is not blank, the client is
    connected and no command is being processed. *)
Definition accepts (w : World) : bool :=
  negb (String.eqb (JsString.trim (userInputValue (dom w))) "")
  && apiConnected (app w) && negb (isProcessing (app w)).

(** The reply of a command call that succeeded: the body is a JSON object
    with a truthy [success]; the reply is its [response]. *)
Definition commandReply (o : FetchOutcome) : option value :=
  match o with
  | Response _ (Some (VObj props)) =>
      if Js.truthy (Js.lookup "success" props)
      then Some (Js.lookup "response" props)
      else None
  | _ => None
  end.

(** The page loaded, the health check succeeded, and [text] typed into the
    input box. *)
Definition connectedWorld (text : string) : World :=
  run (mkEnv true true) [EvLoad; EvHealthSettled healthy; EvInput text]
      initialWorld.

(** The three ways a health-check attempt can end. *)
Inductive HealthResult : Type := Reachable | BadStatus | Unreachable.

(** How a health-check attempt ends: a 2xx response with a JSON body other
    than [null] is a success; a response with another status is a bad
    status; a rejected request, or a 2xx response whose body cannot be read
    as such, is an unreachable server. *)
Definition healthResult (o : FetchOutcome) : HealthResult :=
  match o with
  | NetworkError => Unreachable
  | Response false _ => BadStatus
  | Response true None => Unreachable
  | Response true (Some VNull) | Response true (Some VUndefined) => Unreachable
  | Response true (Some _) => Reachable
  end.

(** A reminder as the list endpoint delivers it: a numeric id, a due-time
    label and a text. *)
Module Reminder.
Record t : Type := mk { id : Z; time : string; text : string }.
End Reminder.

(** The JSON object of a reminder, and the cache holding a list of them. *)
Definition reminderValue (r : Reminder.t) : value :=
  VObj [("id", VNum (Reminder.id r)); ("time", VStr (Reminder.time r));
        ("text", VStr (Reminder.text r))].

Definition cacheOf (rs : list Reminder.t) : value :=
  VArr (List.map reminderValue rs).

(** The row of one reminder: its label, a delete button for its id, and its
    text with the markup characters escaped. *)
Definition rowFor (r : Reminder.t) : string :=
  reminderRow (Reminder.time r) (JsString.of_Z (Reminder.id r))
              (Js.escapeText (Reminder.text r)).

(** The rendering as the specification words it: the placeholder for the
    empty cache, otherwise the rows of the cached reminders, one after the
    other in cache order. *)
Definition renderedList (rs : list Reminder.t) : string :=
  match rs with
  | [] => emptyStateHtml
  | _ :: _ => List.fold_right String.append "" (List.map rowFor rs)
  end.

(** The three pieces of markup a row must hold for its reminder. *)
Definition timeSpan (r : Reminder.t) : string :=
  "<span class=" ++ dq ++ "reminder-time" ++ dq ++ ">" ++ Reminder.time r
  ++ "</span>".
Definition deleteAction (r : Reminder.t) : string :=
  "onclick=" ++ dq ++ "deleteReminder(" ++ JsString.of_Z (Reminder.id r)
  ++ ")" ++ dq.
Definition textDiv (r : Reminder.t) : string :=
  "<div class=" ++ dq ++ "reminder-text" ++ dq ++ ">"
  ++ Js.escapeText (Reminder.text r) ++ "</div>".

(** ** The vocabulary of the run-level properties *)

Definition isHealthSettled (e : Event) : bool :=
  match e with EvHealthSettled _ => true | _ => false end.

(** The events that end a command call, and the one that starts a command
    from a voice transcript. *)
Definition endsCommand (e : Event) : bool :=
  match e with
  | EvCommandRejected _ | EvCommandBody _ _ _ _ => true
  | _ => false
  end.
Definition isRecognitionResult (e : Event) : bool :=
  match e with EvRecognitionResult _ => true | _ => false end.

Definition isRecognitionStart (e : Effect) : bool :=
  match e with ERecognitionStart => true | _ => false end.

(** The number of poll responses in a run that fire the alert. *)
Definition firesAlert (e : Event) : bool :=
  match e with
  | EvAlertsSettled o =>
      match firedMessage o with Some _ => true | None => false end
  | _ => false
  end.

(** Every utterance of a trace is not blank and comes right after a
    [speechSynthesis.cancel()]; [afterCancel] tells whether the effect before
    the trace was one. *)
Fixpoint speechOk (afterCancel : bool) (t : list Effect) : bool :=
  match t with
  | [] => true
  | ESpeak s :: r =>
      afterCancel && negb (String.eqb (JsString.trim s) "") && speechOk false r
  | ESpeechCancel :: r => speechOk true r
  | _ :: r => speechOk false r
  end.

(** The requests the script can issue: the six endpoints with their
    methods, a command body holding a non-empty text. *)
Definition knownRequest (e : Effect) : bool :=
  match e with
  | EFetch GET url None =>
      String.eqb url (Config.API_BASE_URL ++ Config.HEALTH)
      || String.eqb url (Config.API_BASE_URL ++ Config.REMINDERS)
      || String.eqb url (Config.API_BASE_URL ++ Config.TRIGGER_POPUP)
  | EFetch POST url (Some (VObj [(k, VStr command)])) =>
      String.eqb url (Config.API_BASE_URL ++ Config.PROCESS)
      && String.eqb k "command" && negb (String.eqb command "")
  | EFetch DELETE url None =>
      String.eqb url (Config.API_BASE_URL ++ Config.HISTORY)
      || String.prefix (Config.API_BASE_URL ++ Config.REMINDERS ++ "/") url
  | EFetch _ _ _ => false
  | _ => true
  end.

(** ** The vocabulary of the handler properties *)

(** The list a reminders response puts into the cache: the body is a JSON
    object with a truthy [success] under a 2xx status; a missing or falsy
    [reminders] counts as the empty list. *)
Definition listedReminders (o : FetchOutcome) : option value :=
  match o with
  | Response true (Some (VObj props)) =>
      if Js.truthy (Js.lookup "success" props)
      then Some (Js.or_ (Js.lookup "reminders" props) (VArr []))
      else None
  | _ => None
  end.

(** How a command call ends for the user: a reply, a refusal with the
    reason the server gave (if any), or no usable answer at all. *)
Inductive CommandOutcome : Type :=
| Replied (reply : value)
| Refused (reason : value)
| Failed.

Definition commandOutcome (o : FetchOutcome) : CommandOutcome :=
  match o with
  | NetworkError | Response _ None => Failed
  | Response _ (Some VNull) | Response _ (Some VUndefined) => Failed
  | Response _ (Some (VObj props)) =>
      if Js.truthy (Js.lookup "success" props)
      then Replied (Js.lookup "response" props)
      else Refused (Js.lookup "error" props)
  | Response _ (Some _) => Refused VUndefined
  end.

Definition isRefreshTimer (e : Effect) : bool :=
  match e with ESetTimeout CbFetchReminders 1000 => true | _ => false end.

(** [(data.components && data.components.microphone) || data.microphone]
    for a JSON object. *)
Definition micStatusOf (props : list (string * value)) : value :=
  let components := Js.lookup "components" props in
  Js.or_ (Js.and_ components
                  (match Js.getProp components "microphone" with
                   | Some m => m
                   | None => VUndefined
                   end))
         (Js.lookup "microphone" props).

(** A text free of angle brackets, and a chat whose messages all are. *)
Definition noAngle (s : string) : bool :=
  forallb (fun c => negb (JsString.byte_is 60 c || JsString.byte_is 62 c))
          (list_ascii_of_string s).

Definition nodeSafe (n : ChatNode) : bool :=
  match n with
  | NWelcome _ => true
  | NMessage _ _ content => noAngle content
  end.

(** A text the escaping has nothing to do on: no ampersand, no angle
    bracket, and no no-break space (the byte pair C2 A0). *)
Fixpoint plainText (s : string) : bool :=
  match s with
  | EmptyString => true
  | String c r =>
      negb (JsString.byte_is 38 c || JsString.byte_is 60 c
            || JsString.byte_is 62 c)
      && negb (JsString.byte_is 194 c
               && match r with
                  | String d _ => JsString.byte_is 160 d
                  | EmptyString => false
                  end)
      && plainText r
  end.

Definition statsShown (w : World) : Prop :=
  match messageCountEl (dom w) with
  | Some t => t = JsString.of_Z (messageCount (app w))
  | None => True
  end /\
  match voiceCountEl (dom w) with
  | Some t => t = JsString.of_Z (voiceCount (app w))
  | None => True
  end.

(** One of two states: the guard flag is down and nothing was counted yet,
    or it is up and one was. *)
Definition guardState (p : Effect -> bool) (flag : World -> bool)
           (n : nat) (w : World) : Prop :=
  (count p (trace w) = n /\ flag w = false) \/
  (count p (trace w) = S n /\ flag w = true).

Definition startsNoCommandEnd (e : Event) : bool :=
  negb (endsCommand e) && negb (isRecognitionResult e).

Definition isCaptureTrouble (error : string) : bool :=
  String.eqb error "no-speech" || String.eqb error "audio-capture".




(** ** The vocabulary of the rendering property *)





(** The value a JavaScript source text denotes when it is a literal: a
    decimal integer in its canonical writing (with a minus sign in front
    for a negative one), or a string between two equal quotes without
    quote, backslash or line break inside.  [None] for any other text (an
    identifier, an operator expression, ...). *)
Definition readLiteral (src : string) : option value :=
  match option_map Z.of_int (NilZero.int_of_string src) with
  | Some z => if String.eqb (JsString.of_Z z) src then Some (VNum z) else None
  | None =>
      match list_ascii_of_string src with
      | q :: rest =>
          if JsString.byte_is 39 q || JsString.byte_is 34 q then
            match List.rev rest with
            | q' :: inside =>
                if Ascii.eqb q q'
                   && forallb (fun c => negb (Ascii.eqb c q
                                              || JsString.byte_is 92 c
                                              || JsString.byte_is 10 c
                                              || JsString.byte_is 13 c))
                              inside
                then Some (VStr (string_of_list_ascii (List.rev inside)))
                else None
            | [] => None
            end
          else None
      | [] => None
      end
  end.


(** * Properties *)

(** ** Evaluation checks of the string and value helpers *)

Example trim_ex1 : JsString.trim "  what time is it  " = "what time is it".
Proof. reflexivity. Qed.
Example trim_ex2 : JsString.trim (" " ++ nl ++ "   ") = "".
Proof. reflexivity. Qed.
Example trim_ex3 : JsString.trim "❌ Not connected " = "❌ Not connected".
Proof. reflexivity. Qed.
Example trim_ex4 :
  JsString.trim (string_of_list_ascii
                   (bytes [194; 160; 104; 105; 227; 128; 128; 32]%nat)) = "hi".
Proof. reflexivity. Qed.
Example lower_ex :
  JsString.includes "remind" (JsString.toLowerCase "Please REMIND me") = true.
Proof. reflexivity. Qed.
Example ofZ_ex :
  JsString.of_Z 7 = "7" /\ JsString.of_Z (-12) = "-12" /\ JsString.of_Z 0 = "0".
Proof. repeat split. Qed.
Example toStr_ex :
  Js.toStr (VArr [VNum 1; VNull; VArr [VStr "a"; VBool true]]) = "1,,a,true".
Proof. reflexivity. Qed.
Example escapeText_ex :
  Js.escapeText "a<b & c>d" = "a&lt;b &amp; c&gt;d".
Proof. reflexivity. Qed.
Example isBlank_ex :
  isBlank "" = true /\ isBlank "   " = true /\ isBlank " a " = false.
Proof. repeat split. Qed.

(** ** [trim] on blank and on non-blank text *)

Lemma dropPrefix_app : forall p rest, dropPrefix p (p ++ rest)%list = Some rest.
Proof.
  induction p as [|a p IH]; intro rest; simpl.
  - reflexivity.
  - rewrite Ascii.eqb_refl. apply IH.
Qed.

Lemma dropPrefix_inv : forall p l r, dropPrefix p l = Some r -> l = (p ++ r)%list.
Proof.
  induction p as [|a p IH]; intros l r H; simpl in H.
  - now inversion H.
  - destruct l as [|b l]; [discriminate|].
    destruct (Ascii.eqb a b) eqn:E; [|discriminate].
    apply Ascii.eqb_eq in E. subst b. simpl. f_equal. now apply IH.
Qed.

Lemma dropAny_inv : forall table l r,
  dropAny table l = Some r -> exists c, In c table /\ l = (c ++ r)%list.
Proof.
  induction table as [|c more IH]; intros l r H; simpl in H.
  - discriminate.
  - destruct (dropPrefix c l) eqn:E.
    + inversion H; subst. exists c. split; [now left|].
      now apply dropPrefix_inv.
    + destruct (IH _ _ H) as (c' & Hin & ->). exists c'. split; [now right|reflexivity].
Qed.

Lemma whitespaceOnlyb_sound : forall fuel l,
  whitespaceOnlyb fuel l = true -> WhitespaceOnly l.
Proof.
  induction fuel as [|k IH]; intros l H.
  - destruct l; [constructor | discriminate].
  - destruct l as [|a l]; [constructor|].
    cbn [whitespaceOnlyb] in H.
    destruct (dropAny ws_chars (a :: l)) as [r|] eqn:E; [|discriminate].
    destruct (dropAny_inv _ _ _ E) as (c & Hin & ->).
    constructor; [assumption | now apply IH].
Qed.

(** Every character of the table is one [ws_prefix] recognises. *)
Lemma ws_prefix_table : forall c rest,
  In c ws_chars -> JsString.ws_prefix (c ++ rest)%list = Some rest.
Proof.
  intros c rest H. unfold ws_chars in H. simpl in H.
  repeat (destruct H as [<- | H]; [reflexivity|]).
  contradiction.
Qed.

Lemma ws_chars_nonempty : forall c, In c ws_chars -> (1 <= length c)%nat.
Proof.
  intros c H. unfold ws_chars in H. simpl in H.
  repeat (destruct H as [<- | H]; [simpl; lia|]).
  contradiction.
Qed.

Lemma strip_whitespaceOnly : forall l,
  WhitespaceOnly l ->
  forall fuel, (length l <= fuel)%nat -> JsString.strip JsString.ws_prefix fuel l = [].
Proof.
  induction 1 as [|c rest Hc Hrest IH]; intros fuel Hfuel.
  - destruct fuel; reflexivity.
  - pose proof (ws_chars_nonempty _ Hc) as Hlen.
    rewrite length_app in Hfuel.
    destruct fuel as [|k]; [lia|].
    cbn [JsString.strip]. rewrite (ws_prefix_table _ _ Hc).
    apply IH. lia.
Qed.

Lemma trim_whitespaceOnly : forall s,
  WhitespaceOnly (list_ascii_of_string s) -> JsString.trim s = "".
Proof.
  intros s H. unfold JsString.trim, JsString.trimStart_bytes.
  rewrite (strip_whitespaceOnly _ H) by lia. reflexivity.
Qed.

Lemma trim_isBlank : forall s, isBlank s = true -> JsString.trim s = "".
Proof.
  intros s H. apply trim_whitespaceOnly.
  now apply whitespaceOnlyb_sound with (fuel := String.length s).
Qed.

(** A text that starts with a byte found in no white space character is
    not trimmed away. *)
Section TrimKeeps.

Variable p : ascii.
Hypothesis p_ws1 : JsString.ws1 p = false.
Hypothesis p_194 : JsString.byte_is 194 p = false.
Hypothesis p_225 : JsString.byte_is 225 p = false.
Hypothesis p_226 : JsString.byte_is 226 p = false.
Hypothesis p_227 : JsString.byte_is 227 p = false.
Hypothesis p_239 : JsString.byte_is 239 p = false.

Lemma ws_prefix_keeps : forall l, JsString.ws_prefix (p :: l) = None.
Proof.
  intros [|b [|c l]]; unfold JsString.ws_prefix; cbv beta iota;
    rewrite ?p_ws1, ?p_194, ?p_225, ?p_226, ?p_227, ?p_239; reflexivity.
Qed.

Lemma ws_suffix_rev_keeps : forall x r,
  JsString.ws_suffix_rev (x ++ [p])%list = Some r ->
  exists y, r = (y ++ [p])%list.
Proof.
  intros x r.
  destruct x as [|c [|b [|a x]]]; cbn [List.app]; unfold JsString.ws_suffix_rev;
    cbv beta iota.
  - rewrite p_ws1. discriminate.
  - rewrite ?p_194. cbn [andb].
    destruct (JsString.ws1 c); intro H; inversion H. now exists [].
  - rewrite ?p_225, ?p_226, ?p_227, ?p_239. cbn [andb].
    destruct (JsString.ws1 c); [intro H; inversion H; now exists [b]|].
    destruct (JsString.byte_is 194 b && JsString.byte_is 160 c);
      intro H; inversion H. now exists [].
  - repeat match goal with
           | |- context [if ?t then _ else _] => destruct t
           end;
      intro H; inversion H;
      first [ now exists (b :: a :: x) | now exists (a :: x) | now exists x ].
Qed.

Lemma strip_suffix_keeps : forall fuel x,
  exists y,
    JsString.strip JsString.ws_suffix_rev fuel (x ++ [p])%list
    = (y ++ [p])%list.
Proof.
  induction fuel as [|k IH]; intro x; cbn [JsString.strip].
  - now exists x.
  - destruct (JsString.ws_suffix_rev (x ++ [p])%list) as [r|] eqn:E.
    + destruct (ws_suffix_rev_keeps _ _ E) as (y & ->). apply IH.
    + now exists x.
Qed.

Lemma trim_keeps : forall s, exists t, JsString.trim (String p s) = String p t.
Proof.
  intro s. unfold JsString.trim, JsString.trimStart_bytes.
  cbn [list_ascii_of_string length JsString.strip].
  rewrite ws_prefix_keeps.
  unfold JsString.trimEnd_bytes. cbn [rev].
  destruct (strip_suffix_keeps
              (length (p :: list_ascii_of_string s))
              (rev (list_ascii_of_string s))) as (y & ->).
  rewrite rev_app_distr. cbn. eauto.
Qed.

End TrimKeeps.

Lemma trim_Reminder : forall m,
  String.eqb (JsString.trim ("Reminder: " ++ m)) "" = false.
Proof.
  intro m. cbn [String.append].
  destruct (trim_keeps "R"%char eq_refl eq_refl eq_refl eq_refl eq_refl eq_refl
                       ("eminder: " ++ m)) as (t & E).
  cbn [String.append] in E. rewrite E. reflexivity.
Qed.

(** ** Running handler code symbolically *)

Ltac unfold_monad :=
  unfold emit, setApp, setDom, orThrow, when_ in *;
  unfold exec, bind, ret, throw, try_catch, try_finally, gets, modify in *.

Ltac unfold_script :=
  unfold step, handler, onDOMContentLoaded, startReminderPolling,
    startReminderAlertPolling,
    handleClearConversation_settle, handleClearConversation_start,
    onend, onerror, onresult_resume, onresult_start, handleVoiceInput,
    onKeypress, sendQuickCommand, handleSendMessage,
    processCommand_settle, processCommand_body, processCommand_fulfilled,
    processCommand_rejected, processCommand_finally, processCommand_catch,
    processCommand_start,
    checkReminderAlerts_settle, checkReminderAlerts_start, showReminderPopup,
    deleteReminder_settle, deleteReminder_start,
    fetchReminders_settle, fetchReminders_start, updateRemindersUI,
    checkAPIHealth_settle, checkAPIHealth_start, updateConnectionStatus,
    removeWelcomeMessage, addMessageToChat,
    initSpeechRecognition, speakText, updateStats, updateVoiceButton,
    showToast, hideLoading, showLoading in *.

(** Unfold the handler and the monad, then split on whatever test is left
    standing. *)
Ltac simp :=
  cbn -[String.append JsString.trim JsString.of_Z JsString.includes
        JsString.toLowerCase Js.toStr Js.lookup
        Js.escapeText Js.textContentOf Z.add List.app added count] in *.

(** Split on a test that stands in the way, innermost first. *)
Ltac split_tests :=
  simp;
  repeat (match goal with
          | |- context [match ?x with _ => _ end] =>
              lazymatch x with
              | context [match _ with _ => _ end] => fail
              | _ => destruct x eqn:?
              end
          end; simp).

Ltac run_script := unfold_script; unfold_monad; split_tests.

Ltac split_all := repeat match goal with |- _ /\ _ => split end.

Lemma added_app : forall (t u : list Effect), added t (t ++ u)%list = u.
Proof.
  intros t u. unfold added.
  rewrite skipn_app, skipn_all, Nat.sub_diag. reflexivity.
Qed.

Lemma added_same : forall (t : list Effect), added t t = [].
Proof. intro t. unfold added. apply skipn_all. Qed.

(** Bring a trace to the form [t ++ [e1; ...; en]]. *)
Ltac norm_trace := repeat rewrite <- app_assoc; cbn [List.app].

(** ** The command dispatcher returns to idle *)

(** C5. Whatever comes back for the dispatcher's remote call (success,
    application-level failure, an unreadable body, or a rejected request),
    once [processCommand] has run to its end the busy indicator is hidden and
    the processing flag is released. *)
Theorem processCommand_ends_idle :
  forall (w : World) (command now : string) (o : FetchOutcome),
    let w' := exec (processCommand_settle command now o) w in
    isProcessing (app w') = false /\ loadingShown (dom w') = false.
Proof.
  intros w command now o. cbv zeta.
  destruct o as [|ok [data|]]; [| destruct data |]; run_script; auto.
Qed.

(** The same, turn by turn: the request sets both; a rejected request
    clears both; a fulfilled one hides the indicator before the body is
    read; the last turn releases the flag and never shows the indicator. *)
Lemma processCommand_turns :
  forall (w : World) (command now : string) (body : option value),
    (let w1 := exec (processCommand_start command) w in
     isProcessing (app w1) = true /\ loadingShown (dom w1) = true) /\
    (let w2 := exec processCommand_rejected w in
     isProcessing (app w2) = false /\ loadingShown (dom w2) = false) /\
    loadingShown (dom (exec processCommand_fulfilled w)) = false /\
    (let w3 := exec (processCommand_body command now body) w in
     isProcessing (app w3) = false /\
     (loadingShown (dom w3) = false \/
      loadingShown (dom w3) = loadingShown (dom w))).
Proof.
  intros w command now body. cbv zeta.
  repeat split; try reflexivity.
  - destruct body as [data|]; [destruct data|]; run_script; auto.
  - destruct body as [data|]; [destruct data|]; run_script; auto.
Qed.

(** ** Deleting a reminder *)

(** C7. A delete request that fails, by a rejected request or a non-2xx
    status, leaves the cached list and the rendered list as they were and
    shows one notification, of error severity; and neither issuing the
    request nor any way it settles touches the cache or the rendered list,
    so nothing is removed ahead of the next list fetch. *)
Theorem deleteReminder_failure_keeps_list :
  forall (w : World) (reminderId : value) (o : FetchOutcome),
    deleteFailed o = true ->
    let w0 := exec (deleteReminder_start reminderId) w in
    let w' := exec (deleteReminder_settle o) w0 in
    reminders (app w0) = reminders (app w) /\
    remindersList (dom w0) = remindersList (dom w) /\
    reminders (app w') = reminders (app w) /\
    remindersList (dom w') = remindersList (dom w) /\
    count isToast (added (trace w0) (trace w')) = 1%nat /\
    count (isToastOf "error") (added (trace w0) (trace w')) = 1%nat /\
    (forall o', reminders (app (exec (deleteReminder_settle o') w0))
                = reminders (app w) /\
                remindersList (dom (exec (deleteReminder_settle o') w0))
                = remindersList (dom w)).
Proof.
  intros w reminderId o Hfail. cbv zeta.
  set (w0 := exec (deleteReminder_start reminderId) w).
  assert (Hstart : reminders (app w0) = reminders (app w) /\
                   remindersList (dom w0) = remindersList (dom w))
    by (split; reflexivity).
  destruct Hstart as [Hc Hr]. rewrite <- Hc, <- Hr.
  clearbody w0. clear Hc Hr.
  repeat split;
    destruct o as [|[|] body]; try discriminate;
    run_script; norm_trace; rewrite ?added_app; reflexivity.
Qed.

Lemma deleteReminder_failure_keeps_list_witness :
  let w := mkWorld (set_reminders
                      (VArr [VObj [("id", VNum 7); ("time", VStr "5:00 PM");
                                   ("text", VStr "drink water")]])
                      (set_apiConnected true initialApp))
                   initialDom false [] in
  let w0 := exec (deleteReminder_start (VNum 7)) w in
  let w' := exec (deleteReminder_settle (Response false None)) w0 in
  trace w0 = [EFetch DELETE "http://localhost:5000/reminders/7" None] /\
  reminders (app w') = reminders (app w) /\
  remindersList (dom w') = remindersList (dom w) /\
  count (isToastOf "error") (added (trace w0) (trace w')) = 1%nat.
Proof.
  cbv zeta.
  pose proof (deleteReminder_failure_keeps_list
                (mkWorld (set_reminders
                      (VArr [VObj [("id", VNum 7); ("time", VStr "5:00 PM");
                                   ("text", VStr "drink water")]])
                      (set_apiConnected true initialApp))
                   initialDom false [])
                (VNum 7) (Response false None) eq_refl) as H.
  cbv zeta in H.
  destruct H as (_ & _ & Hc & Hr & _ & He & _).
  split; [reflexivity|]. split; [exact Hc|]. split; [exact Hr|exact He].
Defined.

(** ** The due-reminder alert *)

Lemma nonempty_Reminder : forall m, String.eqb ("Reminder: " ++ m) "" = false.
Proof. reflexivity. Qed.

Lemma checkReminderAlerts_fired :
  forall env w o m,
    firedMessage o = Some m ->
    trace (exec (checkReminderAlerts_settle env o) w)
    = (trace w ++ alertEffects env m)%list.
Proof.
  intros env w o m H. unfold alertEffects.
  destruct o as [|ok [[| | | | | |props]|]]; try discriminate.
  cbn [firedMessage] in H.
  destruct (Js.truthy (Js.lookup "success" props)) eqn:Hs; [|discriminate].
  destruct (Js.truthy (Js.lookup "message" props)) eqn:Hm; [|discriminate].
  inversion H; subst m; clear H.
  unfold_script; unfold_monad; simp.
  rewrite Hs; simp. rewrite Hm; simp.
  destruct (hasSpeechSynthesis env); simp;
    rewrite ?nonempty_Reminder; simp; rewrite ?trim_Reminder; simp;
    norm_trace; reflexivity.
Qed.

Lemma checkReminderAlerts_silent :
  forall env w o,
    firedMessage o = None ->
    let t := added (trace w) (trace (exec (checkReminderAlerts_settle env o) w)) in
    t = [] \/ t = [EConsole LError "Popup polling error:"].
Proof.
  intros env w o H. cbv zeta.
  destruct o as [|ok [[| | | | | |props]|]];
    try (unfold_script; unfold_monad; simp;
         first [ left; apply added_same | right; apply added_app ]).
  cbn [firedMessage] in H.
  unfold_script; unfold_monad; simp.
  destruct (Js.truthy (Js.lookup "success" props)) eqn:Hs; simp.
  - destruct (Js.truthy (Js.lookup "message" props)) eqn:Hm; [discriminate|].
    simp. left. apply added_same.
  - left. apply added_same.
Qed.

(** C1, as amended. A poll response fires the alert exactly when its body
    is a JSON object with a truthy [success] and a truthy (for a string:
    non-empty) [message].  Each such response gives exactly one popup
    showing the message, exactly one toast, of warning severity, and one
    call of the speech channel with the text "Reminder: " followed by the
    message, which is one utterance where the platform has speech synthesis
    and none where it has not.  Every other response, and every failed
    poll, gives no popup, no utterance and no toast. *)
Theorem checkReminderAlerts_effects :
  forall (env : Env) (w : World) (o : FetchOutcome),
    let t := added (trace w) (trace (exec (checkReminderAlerts_settle env o) w)) in
    match firedMessage o with
    | Some m =>
        count isPopup t = 1%nat /\
        In (EPopup ("⏰ Reminder: " ++ Js.toStr m)) t /\
        count isToast t = 1%nat /\
        In (EToast ("⏰ " ++ Js.toStr m) "warning") t /\
        count isSpeak t = (if hasSpeechSynthesis env then 1 else 0)%nat /\
        (if hasSpeechSynthesis env
         then In (ESpeak ("Reminder: " ++ Js.toStr m)) t
         else In (EConsole LWarn "Browser TTS not supported") t)
    | None =>
        count isPopup t = 0%nat /\ count isSpeak t = 0%nat /\
        count isToast t = 0%nat
    end.
Proof.
  intros env w o. cbv zeta.
  destruct (firedMessage o) as [m|] eqn:H.
  - rewrite (checkReminderAlerts_fired env w o m H), added_app.
    unfold alertEffects.
    destruct (hasSpeechSynthesis env); cbn; intuition.
  - destruct (checkReminderAlerts_silent env w o H) as [-> | ->];
      repeat split; reflexivity.
Qed.

(** C1 as the claim states it fails, in two ways.  The first response
    carries the non-empty message "drink water" and the client shows no
    popup, speaks nothing and shows no toast, because the response's
    [success] is [false].  The second response has [success] set and the
    same message, on a platform without speech synthesis: the popup and the
    toast are shown once each and nothing is spoken. *)
Lemma checkReminderAlerts_message_alone_is_not_enough :
  let unflagged := VObj [("success", VBool false); ("message", VStr "drink water")] in
  let flagged := VObj [("success", VBool true); ("message", VStr "drink water")] in
  let w1 := exec (checkReminderAlerts_settle (mkEnv true true)
                    (Response true (Some unflagged))) initialWorld in
  let w2 := exec (checkReminderAlerts_settle (mkEnv true false)
                    (Response true (Some flagged))) initialWorld in
  (Js.getProp unflagged "message" = Some (VStr "drink water") /\
   count isPopup (trace w1) = 0%nat /\
   count isSpeak (trace w1) = 0%nat /\
   count isToast (trace w1) = 0%nat) /\
  (Js.getProp flagged "message" = Some (VStr "drink water") /\
   count isPopup (trace w2) = 1%nat /\
   count isSpeak (trace w2) = 0%nat /\
   count isToast (trace w2) = 1%nat).
Proof. cbv zeta. repeat split; reflexivity. Qed.

(** C10. A poll response that carries a non-empty message but whose
    [success] is [false] changes nothing: no popup, no utterance, no toast,
    and no other effect either. *)
Theorem checkReminderAlerts_needs_success :
  forall (env : Env) (w : World) (ok : bool) (props : list (string * value))
         (message : string),
    Js.lookup "success" props = VBool false ->
    Js.lookup "message" props = VStr message ->
    message <> "" ->
    exec (checkReminderAlerts_settle env (Response ok (Some (VObj props)))) w = w.
Proof.
  intros env w ok props message Hs Hm _.
  unfold_script; unfold_monad; simp. rewrite Hs. reflexivity.
Qed.

Lemma checkReminderAlerts_needs_success_witness :
  exec (checkReminderAlerts_settle (mkEnv true true)
          (Response true
             (Some (VObj [("success", VBool false);
                          ("message", VStr "drink water")]))))
       initialWorld
  = initialWorld.
Proof.
  apply (checkReminderAlerts_needs_success (mkEnv true true) initialWorld true
           [("success", VBool false); ("message", VStr "drink water")]
           "drink water").
  - reflexivity.
  - reflexivity.
  - discriminate.
Defined.

(** ** Submitting blank text *)

(** C9. When the command text is empty or made of white space only, submit
    (the send handler on the text of the input box, or a quick command with
    that text) issues no request, leaves the [state] object as it is, and
    shows the warning notification, whatever the connection state and the
    processing flag are. *)
Theorem blank_submit_warns_without_request :
  forall (w : World) (text : string),
    isBlank text = true ->
    let w1 := exec handleSendMessage (updDom (set_userInputValue text) w) in
    let w2 := exec (sendQuickCommand text) w in
    trace w1 = (trace w ++ pleaseEnter)%list /\
    app w1 = app w /\
    count isFetch (added (trace w) (trace w1)) = 0%nat /\
    count (isToastOf "warning") (added (trace w) (trace w1)) = 1%nat /\
    w2 = w1.
Proof.
  intros w text Hblank. cbv zeta.
  assert (Hrun : trace (exec handleSendMessage
                          (updDom (set_userInputValue text) w))
                 = (trace w ++ pleaseEnter)%list /\
                 app (exec handleSendMessage
                        (updDom (set_userInputValue text) w)) = app w).
  { unfold_script; unfold_monad; simp.
    rewrite (trim_isBlank _ Hblank). simp. norm_trace. split; reflexivity. }
  destruct Hrun as [Ht Ha].
  rewrite Ht, Ha, added_app.
  repeat split; reflexivity.
Qed.

Lemma blank_submit_warns_without_request_witness :
  let w := mkWorld (set_apiConnected true initialApp) initialDom false [] in
  let w1 := exec handleSendMessage (updDom (set_userInputValue "   ") w) in
  isBlank "   " = true /\
  trace w1 = pleaseEnter /\
  count isFetch (trace w1) = 0%nat.
Proof.
  cbv zeta.
  destruct (blank_submit_warns_without_request
              (mkWorld (set_apiConnected true initialApp) initialDom false [])
              "   " eq_refl) as (Ht & _ & _ & _ & _).
  split; [reflexivity|]. split; [exact Ht|]. rewrite Ht. reflexivity.
Defined.

(** ** One command in flight *)

(** While the processing flag is set, the send handler, a quick command and
    the Enter key issue no request: the typed paths are guarded. *)
Lemma typed_submit_dropped_while_processing :
  forall (w : World) (command : string),
    isProcessing (app w) = true ->
    count isFetch (added (trace w) (trace (exec handleSendMessage w))) = 0%nat /\
    count isFetch (added (trace w) (trace (exec (sendQuickCommand command) w)))
    = 0%nat /\
    exec (onKeypress "Enter") w = w.
Proof.
  intros w command Hbusy.
  unfold_script; unfold_monad; simp. rewrite Hbusy. simp.
  repeat split.
  - destruct (String.eqb (JsString.trim (userInputValue (dom w))) ""); simp;
      [norm_trace; now rewrite added_app|].
    destruct (apiConnected (app w)); simp;
      [|norm_trace; now rewrite added_app].
    rewrite Hbusy. simp. now rewrite added_same.
  - destruct (String.eqb (JsString.trim command) ""); simp;
      [norm_trace; now rewrite added_app|].
    destruct (apiConnected (app w)); simp;
      [|norm_trace; now rewrite added_app].
    rewrite Hbusy. simp. now rewrite added_same.
Qed.

(** The result handler of the recognition session does not look at the
    processing flag: a transcript that is not blank always goes out as a
    request. *)
Lemma onresult_requests_whatever_the_flag :
  forall (w : World) (raw : string),
    String.eqb (JsString.trim raw) "" = false ->
    exists t,
      trace (exec (onresult_start raw) w)
      = (trace w ++ t ++
         [EFetch POST (Config.API_BASE_URL ++ Config.PROCESS)
                 (Some (VObj [("command", VStr (JsString.trim raw))]))])%list.
Proof.
  intros w raw Hraw.
  unfold_script; unfold_monad; simp. rewrite Hraw. simp.
  destruct (existsb isWelcome _); simp; norm_trace;
    [ exists [EConsole LLog "🎙 Recognized:"; ESetTimeout CbWelcomeRemove 300]
    | exists [EConsole LLog "🎙 Recognized:"] ];
    reflexivity.
Qed.

(** C2, where the code departs from the claim.  The page loads, the health
    check succeeds, the user starts a voice session, types "what time is
    it" and presses Enter: one command request is out and the processing
    flag is set.  The recognition result that then arrives is not dropped:
    a second command request goes out while the first is unresolved. *)
Theorem voice_result_during_command_is_sent :
  let env := mkEnv true true in
  let w1 := run env [EvLoad; EvHealthSettled healthy; EvClickVoice false;
                     EvInput "what time is it"; EvKeypress "Enter"]
                initialWorld in
  let w2 := step env w1
              (EvRecognitionResult "set a reminder in 2 minutes to stretch") in
  isProcessing (app w1) = true /\
  count isCommandFetch (trace w1) = 1%nat /\
  count isCommandFetch (trace w2) = 2%nat /\
  added (trace w1) (trace w2)
  = [EConsole LLog "🎙 Recognized:"; ESetTimeout CbWelcomeRemove 300;
     EFetch POST "http://localhost:5000/process"
            (Some (VObj [("command",
                          VStr "set a reminder in 2 minutes to stretch")]))].
Proof. cbv zeta. repeat split; reflexivity. Qed.

(** ** Acting while disconnected *)

(** C3 as the claim states it fails: with the connection state
    disconnected, deleting reminder 7 and clearing the conversation (once
    confirmed) each issue their request, and show no notification. *)
Lemma disconnected_delete_and_clear_still_request :
  apiConnected (app initialWorld) = false /\
  trace (exec (deleteReminder_start (VNum 7)) initialWorld)
  = [EFetch DELETE "http://localhost:5000/reminders/7" None] /\
  trace (exec (handleClearConversation_start true) initialWorld)
  = [EFetch DELETE "http://localhost:5000/history" None].
Proof. repeat split; reflexivity. Qed.

(** C3, as amended. While the connection state is disconnected, the send
    handler called with a text that is not blank (by the send button, by a
    quick command, or by the Enter key while no command is being processed)
    and the click that starts voice capture each stop with one error
    notification, issue no request and leave the [state] object alone; the
    Enter key while a command is being processed does nothing at all.
    Deleting a reminder and clearing the conversation (once confirmed) do
    not look at the connection state: each issues its DELETE request, and
    shows an error notification only when that request fails.  A
    transcript delivered by a recognition session is not part of this
    statement. *)
Theorem disconnected_actions :
  forall (env : Env) (w : World) (text : string) (startThrows : bool)
         (reminderId : value) (o : FetchOutcome),
    apiConnected (app w) = false ->
    String.eqb (JsString.trim text) "" = false ->
    let typed := updDom (set_userInputValue text) w in
    let ws := exec (sendQuickCommand text) w in
    let wv := exec (handleVoiceInput env startThrows) w in
    let wd := exec (deleteReminder_start reminderId) w in
    let wc := exec (handleClearConversation_start true) w in
    (trace ws = (trace w ++ notConnected)%list /\ app ws = app w) /\
    (trace wv = (trace w ++ (if hasSpeechRecognition env
                             then notConnected else voiceUnsupported))%list /\
     app wv = app w) /\
    (trace wd = (trace w ++
                 [EFetch DELETE
                    (Config.API_BASE_URL ++ Config.REMINDERS ++ "/"
                     ++ Js.toStr reminderId) None])%list /\
     count (isToastOf "error")
           (added (trace wd) (trace (exec (deleteReminder_settle o) wd)))
     = (if deleteFailed o then 1 else 0)%nat) /\
    (trace wc = (trace w ++
                 [EFetch DELETE (Config.API_BASE_URL ++ Config.HISTORY) None])%list /\
     count (isToastOf "error")
           (added (trace wc) (trace (exec (handleClearConversation_settle o) wc)))
     = (if deleteFailed o then 1 else 0)%nat) /\
    (trace (exec handleSendMessage typed) = (trace w ++ notConnected)%list /\
     app (exec handleSendMessage typed) = app w /\
     count isFetch (added (trace w) (trace (exec handleSendMessage typed)))
     = 0%nat) /\
    exec (onKeypress "Enter") typed
    = (if isProcessing (app w) then typed else exec handleSendMessage typed).
Proof.
  intros env w text startThrows reminderId o Hdisc Htext. cbv zeta.
  assert (Hsend : trace (exec handleSendMessage (updDom (set_userInputValue text) w))
                  = (trace w ++ notConnected)%list /\
                  app (exec handleSendMessage (updDom (set_userInputValue text) w))
                  = app w).
  { unfold_script; unfold_monad; simp. rewrite Htext. simp.
    rewrite Hdisc. simp. norm_trace. split; reflexivity. }
  split; [|split; [|split; [|split; [|split]]]].
  - exact Hsend.
  - unfold_script; unfold_monad; simp.
    destruct (hasSpeechRecognition env); simp.
    + rewrite Hdisc. simp. norm_trace. split; reflexivity.
    + norm_trace. split; reflexivity.
  - split; [reflexivity|].
    set (wd := exec (deleteReminder_start reminderId) w).
    assert (Hd : apiConnected (app wd) = false) by exact Hdisc.
    clearbody wd.
    destruct o as [|[|] body]; unfold_script; unfold_monad; simp;
      rewrite ?Hd; simp; norm_trace; rewrite added_app; reflexivity.
  - split; [reflexivity|].
    set (wc := exec (handleClearConversation_start true) w).
    clearbody wc.
    destruct o as [|[|] body]; run_script; norm_trace;
      rewrite added_app; reflexivity.
  - destruct Hsend as [Ht Ha]. split; [exact Ht|]. split; [exact Ha|].
    rewrite Ht, added_app. reflexivity.
  - unfold onKeypress. unfold_monad. cbn [String.eqb Ascii.eqb Bool.eqb andb].
    cbv beta iota.
    change (isProcessing (app (updDom (set_userInputValue text) w)))
      with (isProcessing (app w)).
    destruct (isProcessing (app w)); reflexivity.
Qed.

Lemma disconnected_actions_witness :
  let typed := updDom (set_userInputValue "what time is it") initialWorld in
  let ws := exec (sendQuickCommand "what time is it") initialWorld in
  let wv := exec (handleVoiceInput (mkEnv true true) false) initialWorld in
  trace ws = notConnected /\ trace wv = notConnected /\
  trace (exec handleSendMessage typed) = notConnected /\
  exec (onKeypress "Enter") typed = exec handleSendMessage typed.
Proof.
  cbv zeta.
  destruct (disconnected_actions (mkEnv true true) initialWorld
              "what time is it" false (VNum 7) NetworkError
              eq_refl eq_refl) as ((Hs & _) & (Hv & _) & _ & _ & (Hb & _) & Hk).
  split; [exact Hs|]. split; [exact Hv|]. split; [exact Hb | exact Hk].
Defined.

(** ** Conversation turns and the message counter *)

(** Handling what comes back for a command never touches the counters, and
    appends one turn exactly on success. *)
Lemma processCommand_settle_state :
  forall (w : World) (command now : string) (o : FetchOutcome),
    let w' := exec (processCommand_settle command now o) w in
    messageCount (app w') = messageCount (app w) /\
    voiceCount (app w') = voiceCount (app w) /\
    conversationHistory (app w')
    = match commandReply o with
      | Some reply =>
          (conversationHistory (app w) ++ [mkTurn command reply now])%list
      | None => conversationHistory (app w)
      end.
Proof.
  intros w command now o. cbv zeta.
  destruct o as [|ok [data|]]; [| destruct data |]; run_script; auto.
Qed.

(** C4 as the claim states it fails.  The user, connected, sends "what time
    is it".  The message counter is already 1 when the request goes out;
    handling the success response appends the turn and leaves the counter
    at 1; and when the request fails instead, the counter stays at 1 as
    well, with no turn appended. *)
Lemma message_counter_moves_at_submit_not_on_success :
  let env := mkEnv true true in
  let now := "2025-01-01T10:00:00.000Z" in
  let reply := VObj [("success", VBool true); ("response", VStr "It is 10:00 AM")] in
  let w0 := run env [EvLoad; EvHealthSettled healthy;
                     EvInput "what time is it"] initialWorld in
  let w1 := step env w0 EvClickSend in
  let w2 := exec (processCommand_settle "what time is it" now
                    (Response true (Some reply))) w1 in
  let w2' := exec (processCommand_settle "what time is it" now NetworkError) w1 in
  messageCount (app w0) = 0 /\
  messageCount (app w1) = 1 /\ count isCommandFetch (trace w1) = 1%nat /\
  messageCount (app w2) = messageCount (app w1) /\
  conversationHistory (app w2)
  = [mkTurn "what time is it" (VStr "It is 10:00 AM") now] /\
  messageCount (app w2') = 1 /\ conversationHistory (app w2') = [].
Proof. cbv zeta. split_all; vm_compute; reflexivity. Qed.

(** C4, as amended. An accepted submission adds one to the message counter
    when it is accepted, before the request goes out and whatever comes
    back; the voice counter and the history are untouched at that point and
    the request carries the trimmed text.  Handling the success response
    appends one turn (that text, the reply, the time stamp) and leaves the
    counters alone; on an application-level or transport failure no turn is
    appended, and the counters are left alone as well. *)
Theorem accepted_submission_counts_then_records :
  forall (w : World) (now : string) (o : FetchOutcome),
    accepts w = true ->
    let command := JsString.trim (userInputValue (dom w)) in
    let w1 := exec handleSendMessage w in
    let w2 := exec (processCommand_settle command now o) w1 in
    messageCount (app w1) = messageCount (app w) + 1 /\
    voiceCount (app w1) = voiceCount (app w) /\
    conversationHistory (app w1) = conversationHistory (app w) /\
    count isCommandFetch (added (trace w) (trace w1)) = 1%nat /\
    In (EFetch POST (Config.API_BASE_URL ++ Config.PROCESS)
               (Some (VObj [("command", VStr command)])))
       (added (trace w) (trace w1)) /\
    messageCount (app w2) = messageCount (app w1) /\
    voiceCount (app w2) = voiceCount (app w) /\
    conversationHistory (app w2)
    = match commandReply o with
      | Some reply =>
          (conversationHistory (app w) ++ [mkTurn command reply now])%list
      | None => conversationHistory (app w)
      end.
Proof.
  intros w now o Hacc. cbv zeta.
  unfold accepts in Hacc.
  apply andb_prop in Hacc. destruct Hacc as [Hacc Hidle].
  apply andb_prop in Hacc. destruct Hacc as [Htext Hconn].
  apply negb_true_iff in Htext. apply negb_true_iff in Hidle.
  assert (H1 : messageCount (app (exec handleSendMessage w))
               = messageCount (app w) + 1 /\
               voiceCount (app (exec handleSendMessage w)) = voiceCount (app w) /\
               conversationHistory (app (exec handleSendMessage w))
               = conversationHistory (app w) /\
               exists t, ~ In true (map isCommandFetch t) /\
                 trace (exec handleSendMessage w)
                 = (trace w ++ t ++
                    [EFetch POST (Config.API_BASE_URL ++ Config.PROCESS)
                       (Some (VObj [("command",
                          VStr (JsString.trim (userInputValue (dom w))))]))])%list).
  { unfold_script; unfold_monad; simp.
    rewrite Htext; simp. rewrite Hconn; simp. rewrite Hidle; simp.
    destruct (existsb isWelcome _); simp; norm_trace;
      (repeat split; try reflexivity);
      [ exists [ESetTimeout CbWelcomeRemove 300] | exists [] ];
      (split; [cbn; intuition discriminate | reflexivity]). }
  destruct H1 as (Hm & Hv & Hh & t & Ht & Htr).
  pose proof (processCommand_settle_state (exec handleSendMessage w)
                (JsString.trim (userInputValue (dom w))) now o) as H2.
  cbv zeta in H2. destruct H2 as (Hm2 & Hv2 & Hh2).
  rewrite Htr, added_app.
  repeat split; try assumption.
  - unfold count. rewrite filter_app, length_app. cbn.
    assert (Hnone : filter isCommandFetch t = []).
    { clear -Ht. induction t as [|e t IH]; [reflexivity|].
      cbn in *. destruct (isCommandFetch e) eqn:E.
      - exfalso. apply Ht. now left.
      - apply IH. intro H. apply Ht. now right. }
    rewrite Hnone. reflexivity.
  - apply in_or_app. right. now left.
  - now rewrite Hv2.
  - now rewrite Hh2, Hh.
Qed.

Lemma accepted_submission_counts_then_records_witness :
  let w := connectedWorld "  what time is it " in
  let now := "2025-01-01T10:00:00.000Z" in
  let o := Response true (Some (VObj [("success", VBool true);
                                      ("response", VStr "It is 10:00 AM")])) in
  let command := JsString.trim (userInputValue (dom w)) in
  let w1 := exec handleSendMessage w in
  let w2 := exec (processCommand_settle command now o) w1 in
  accepts w = true /\
  command = "what time is it" /\
  messageCount (app w1) = messageCount (app w) + 1 /\
  messageCount (app w2) = messageCount (app w1) /\
  conversationHistory (app w2)
  = (conversationHistory (app w) ++ [mkTurn command (VStr "It is 10:00 AM") now])%list.
Proof.
  cbv zeta.
  assert (Hacc : accepts (connectedWorld "  what time is it ") = true)
    by (vm_compute; reflexivity).
  destruct (accepted_submission_counts_then_records
              (connectedWorld "  what time is it ")
              "2025-01-01T10:00:00.000Z"
              (Response true
                 (Some (VObj [("success", VBool true);
                              ("response", VStr "It is 10:00 AM")])))
              Hacc) as (Hm1 & _ & _ & _ & _ & Hm2 & _ & Hh).
  split; [exact Hacc|]. split; [vm_compute; reflexivity|].
  split; [exact Hm1|]. split; [exact Hm2 | exact Hh].
Defined.

(** ** The health check *)

Lemma getProp_truthy : forall v k,
  Js.truthy v = true -> Js.getProp v k = None -> False.
Proof. intros [| | | | | |] k Ht H; cbn in *; discriminate. Qed.

(** C6 as the claim states it fails: the client is connected and a health
    check comes back with a non-success status.  The connection state
    becomes disconnected, with the label "Connection Error", and no
    notification is shown. *)
Lemma health_bad_status_is_silent :
  let w := connectedWorld "" in
  let w' := exec (checkAPIHealth_settle (Response false None)) w in
  apiConnected (app w) = true /\
  apiConnected (app w') = false /\
  statusText (dom w') = "Connection Error" /\
  count isToast (added (trace w) (trace w')) = 0%nat /\
  trace w' = trace w.
Proof. cbv zeta. split_all; vm_compute; reflexivity. Qed.

(** C6, as amended. A health check that fails by a network error (or by a
    2xx response without a readable body) sets the connection state to
    disconnected and shows one notification, of error severity.  One that
    fails by a non-success status sets the connection state to
    disconnected, with the label "Connection Error", and shows no
    notification.  A successful one sets the connection state to
    connected and shows no error notification. *)
Theorem checkAPIHealth_outcomes :
  forall (w : World) (o : FetchOutcome),
    let w' := exec (checkAPIHealth_settle o) w in
    let t := added (trace w) (trace w') in
    match healthResult o with
    | Reachable =>
        apiConnected (app w') = true /\
        statusText (dom w') = "Connected" /\
        statusDotDisconnected (dom w') = false /\
        count (isToastOf "error") t = 0%nat
    | BadStatus =>
        apiConnected (app w') = false /\
        statusText (dom w') = "Connection Error" /\
        statusDotDisconnected (dom w') = true /\
        t = []
    | Unreachable =>
        apiConnected (app w') = false /\
        statusText (dom w') = "Disconnected" /\
        statusDotDisconnected (dom w') = true /\
        count isToast t = 1%nat /\
        count (isToastOf "error") t = 1%nat
    end.
Proof.
  intros w o. cbv zeta.
  destruct o as [|[|] [data|]]; [| destruct data | | |];
    cbn [healthResult]; run_script; norm_trace;
    rewrite ?added_app, ?added_same; split_all;
    solve [ reflexivity
          | exfalso; eapply getProp_truthy; eassumption ].
Qed.

(** ** Rendering the reminder list *)

Lemma renderRows_cache : forall rs,
  renderRows (List.map reminderValue rs)
  = Some (List.fold_right String.append "" (List.map rowFor rs)).
Proof.
  induction rs as [|r rs IH]; cbn [List.map renderRows List.fold_right].
  - reflexivity.
  - rewrite IH. reflexivity.
Qed.

Lemma prefix_app_same : forall a b c,
  String.prefix (a ++ b) (a ++ c) = String.prefix b c.
Proof.
  induction a as [|x a IH]; intros b c; cbn.
  - reflexivity.
  - destruct (ascii_dec x x) as [_|N]; [apply IH | now elim N].
Qed.

Lemma includes_here : forall p s, String.prefix p s = true -> JsString.includes p s = true.
Proof.
  intros p s H. destruct s; cbn [JsString.includes]; rewrite H; reflexivity.
Qed.

Lemma includes_skip : forall p c s,
  JsString.includes p s = true -> JsString.includes p (String c s) = true.
Proof.
  intros p c s H. cbn [JsString.includes].
  destruct (String.prefix p (String c s)); [reflexivity | exact H].
Qed.

Lemma includes_app_r : forall p a s,
  JsString.includes p s = true -> JsString.includes p (a ++ s) = true.
Proof.
  induction a as [|c a IH]; intros s H; cbn [String.append].
  - exact H.
  - apply includes_skip. now apply IH.
Qed.

(** Look for the pattern along a text made of literal characters and
    appended variables. *)
Ltac find_included :=
  repeat first
    [ solve [ apply includes_here; cbn;
              rewrite ?prefix_app_same; cbn; reflexivity ]
    | apply includes_skip
    | apply includes_app_r ].

Lemma rowFor_shows : forall r,
  JsString.includes (timeSpan r) (rowFor r) = true /\
  JsString.includes (deleteAction r) (rowFor r) = true /\
  JsString.includes (textDiv r) (rowFor r) = true.
Proof.
  intro r. unfold rowFor, reminderRow, timeSpan, deleteAction, textDiv.
  generalize (Reminder.time r) (JsString.of_Z (Reminder.id r))
             (Js.escapeText (Reminder.text r)).
  intros time id text.
  split_all; cbn -[JsString.includes String.prefix]; find_included.
Qed.

(** The decimal text of an id reads back as that id, so different ids give
    different delete actions. *)
Lemma of_Z_reads_back : forall z,
  option_map Z.of_int (NilZero.int_of_string (JsString.of_Z z)) = Some z.
Proof.
  intro z. unfold JsString.of_Z. rewrite NilZero.isi.
  - cbn [option_map]. now rewrite DecimalZ.of_to.
  - destruct z; cbn; try discriminate.
    intros [= H]. now apply DecimalPos.Unsigned.to_uint_nonnil in H.
  - destruct z; cbn; try discriminate.
    intros [= H]. now apply DecimalPos.Unsigned.to_uint_nonnil in H.
Qed.

Lemma of_Z_inj : forall a b, JsString.of_Z a = JsString.of_Z b -> a = b.
Proof.
  intros a b H.
  pose proof (of_Z_reads_back a) as Ha. rewrite H, of_Z_reads_back in Ha.
  now inversion Ha.
Qed.

Lemma length_append : forall s t,
  String.length (s ++ t) = (String.length s + String.length t)%nat.
Proof.
  induction s as [|c s IH]; intro t; cbn; [reflexivity | now rewrite IH].
Qed.

Lemma append_inj_r : forall s s' t, s ++ t = s' ++ t -> s = s'.
Proof.
  induction s as [|c s IH]; intros s' t H.
  - destruct s' as [|c' s']; [reflexivity|].
    apply (f_equal String.length) in H.
    cbn [String.append String.length] in H.
    rewrite length_append in H. lia.
  - destruct s' as [|c' s'].
    + apply (f_equal String.length) in H.
      cbn [String.append String.length] in H.
      rewrite length_append in H. lia.
    + cbn in H. injection H as -> H. f_equal. now apply IH with t.
Qed.

Lemma deleteAction_inj : forall r r',
  deleteAction r = deleteAction r' -> Reminder.id r = Reminder.id r'.
Proof.
  intros r r' H. unfold deleteAction in H.
  apply of_Z_inj.
  apply append_inj_r with (t := ")" ++ dq).
  cbn [String.append] in H.
  repeat match type of H with
         | String _ _ = String _ _ => injection H as H
         end.
  exact H.
Qed.


(** * Further properties of the handlers and of the event loop *)

(** ** Invariants of the event loop *)

Lemma run_cons : forall env e es w, run env (e :: es) w = run env es (step env w e).
Proof. reflexivity. Qed.

Lemma run_app : forall env es es' w,
  run env (es ++ es')%list w = run env es' (run env es w).
Proof. intros. unfold run. apply fold_left_app. Qed.

(** A property every event keeps holds along every run. *)
Lemma run_keeps : forall env (I : World -> Prop),
  (forall w e, I w -> I (step env w e)) ->
  forall es w, I w -> I (run env es w).
Proof.
  intros env I Hstep es. induction es as [|e es IH]; intros w Hw.
  - exact Hw.
  - rewrite run_cons. apply IH. now apply Hstep.
Qed.

(** X1. The connection state is written by the health check alone: no other
    event of the loop (no user action, no poll, no settling of another
    request) changes the connected flag, the status label or the status
    dot. *)
Theorem connection_state_only_from_health :
  forall (env : Env) (w : World) (e : Event),
    isHealthSettled e = false ->
    apiConnected (app (step env w e)) = apiConnected (app w) /\
    statusText (dom (step env w e)) = statusText (dom w) /\
    statusDotDisconnected (dom (step env w e)) = statusDotDisconnected (dom w).
Proof.
  intros env w e H.
  destruct e; try discriminate; clear H; run_script; split_all; reflexivity.
Qed.

Lemma connection_state_only_from_health_witness :
  let env := mkEnv true true in
  let w := connectedWorld "what time is it" in
  apiConnected (app w) = true /\
  apiConnected (app (step env w EvClickSend)) = apiConnected (app w) /\
  apiConnected (app (step env w (EvCommandRejected false))) = apiConnected (app w).
Proof.
  cbv zeta. split; [vm_compute; reflexivity|]. split.
  - exact (proj1 (connection_state_only_from_health (mkEnv true true)
                    (connectedWorld "what time is it") EvClickSend eq_refl)).
  - exact (proj1 (connection_state_only_from_health (mkEnv true true)
                    (connectedWorld "what time is it")
                    (EvCommandRejected false) eq_refl)).
Defined.

Lemma status_dot_step : forall env w e,
  statusDotDisconnected (dom w) = negb (apiConnected (app w)) ->
  statusDotDisconnected (dom (step env w e))
  = negb (apiConnected (app (step env w e))).
Proof.
  intros env w e H.
  destruct e; run_script; first [reflexivity | congruence].
Qed.

Lemma status_dot_settled : forall env w o,
  statusDotDisconnected (dom (step env w (EvHealthSettled o)))
  = negb (apiConnected (app (step env w (EvHealthSettled o)))).
Proof. intros env w o. run_script; reflexivity. Qed.

(** X2. Once a health check has settled, the status dot shows
    "disconnected" exactly when the connected flag is down, and this stays
    so along every later sequence of events. *)
Theorem status_dot_tracks_connection :
  forall (env : Env) (w : World) (before after : list Event) (o : FetchOutcome),
    let w' := run env (before ++ EvHealthSettled o :: after) w in
    statusDotDisconnected (dom w') = negb (apiConnected (app w')).
Proof.
  intros env w before after o. cbv zeta.
  rewrite run_app, run_cons.
  apply (run_keeps env (fun w => statusDotDisconnected (dom w)
                                 = negb (apiConnected (app w)))).
  - intros w0 e. apply status_dot_step.
  - apply status_dot_settled.
Qed.

Lemma counters_step : forall env w e,
  0 <= voiceCount (app w) <= messageCount (app w) ->
  0 <= voiceCount (app (step env w e)) <= messageCount (app (step env w e)).
Proof.
  intros env w e H.
  destruct e; run_script; lia.
Qed.

(** X3. Along every run from the initial state the voice counter is never
    negative and never above the message counter. *)
Theorem counters_ordered :
  forall (env : Env) (es : list Event),
    let w := run env es initialWorld in
    0 <= voiceCount (app w) <= messageCount (app w).
Proof.
  intros env es. cbv zeta.
  apply (run_keeps env (fun w => 0 <= voiceCount (app w) <= messageCount (app w))).
  - intros w e. apply counters_step.
  - cbn. lia.
Qed.

Lemma count_app : forall p (t u : list Effect),
  count p (t ++ u)%list = (count p t + count p u)%nat.
Proof. intros. unfold count. now rewrite filter_app, length_app. Qed.

(** Count over a trace brought to the form [t ++ [e1; ...; en]]. *)
Ltac count_trace :=
  norm_trace; rewrite ?count_app; cbn [count List.filter List.length];
  cbn -[count Nat.add] in *.

Lemma statsShown_step : forall env w e,
  statsShown w -> statsShown (step env w e).
Proof.
  intros env w e [Hm Hv]. unfold statsShown.
  destruct e; run_script; split; first [exact I | assumption | congruence].
Qed.

Lemma statsShown_load : forall env w, statsShown (step env w EvLoad).
Proof.
  intros env w. unfold statsShown.
  run_script; split; first [exact I | reflexivity | congruence].
Qed.

(** X4. From page load on, along every sequence of events, the two counter
    elements (where the page has them) show the decimal text of the message
    and voice counters of the state: every handler that changes a counter
    refreshes the display. *)
Theorem stats_display_follows_counters :
  forall (env : Env) (w : World) (before after : list Event),
    statsShown (run env (before ++ EvLoad :: after) w).
Proof.
  intros env w before after.
  rewrite run_app, run_cons.
  apply (run_keeps env statsShown).
  - intros w0 e. apply statsShown_step.
  - apply statsShown_load.
Qed.

Lemma voice_button_step : forall env w e,
  voiceBtnListening (dom w) = isListening (app w) ->
  voiceBtnListening (dom (step env w e)) = isListening (app (step env w e)).
Proof.
  intros env w e H.
  destruct e; run_script; first [reflexivity | congruence].
Qed.

(** X5. Along every run from the initial state the voice button carries its
    "listening" mark exactly when the listening flag is set. *)
Theorem voice_button_tracks_listening :
  forall (env : Env) (es : list Event),
    let w := run env es initialWorld in
    voiceBtnListening (dom w) = isListening (app w).
Proof.
  intros env es. cbv zeta.
  apply (run_keeps env (fun w => voiceBtnListening (dom w) = isListening (app w))).
  - intros w e. apply voice_button_step.
  - reflexivity.
Qed.

(** ** The two guards along a run *)

Ltac close_guard :=
  first [ left; split; [lia | first [reflexivity | assumption | congruence]]
        | right; split; [lia | first [reflexivity | assumption | congruence]] ].






Lemma command_fetch_step : forall env w e n,
  startsNoCommandEnd e = true ->
  guardState isCommandFetch (fun w => isProcessing (app w)) n w ->
  guardState isCommandFetch (fun w => isProcessing (app w)) n (step env w e).
Proof.
  unfold guardState. intros env w e n He H.
  destruct e; try discriminate; clear He;
    run_script; count_trace;
    destruct H as [[Hc Hl] | [Hc Hl]]; try congruence;
    rewrite ?Hc; close_guard.
Qed.

(** X7. The processing flag guards the typed paths: from an idle state,
    along any sequence of events without the end of a command call and
    without a recognition result, at most one command request is issued. *)
Theorem one_command_in_flight_without_voice :
  forall (env : Env) (es : list Event) (w : World),
    forallb startsNoCommandEnd es = true ->
    isProcessing (app w) = false ->
    (count isCommandFetch (trace (run env es w))
     <= count isCommandFetch (trace w) + 1)%nat.
Proof.
  intros env es w Hes Hl.
  assert (H : guardState isCommandFetch (fun w => isProcessing (app w))
                         (count isCommandFetch (trace w)) (run env es w)).
  { assert (H0 : guardState isCommandFetch (fun w => isProcessing (app w))
                            (count isCommandFetch (trace w)) w)
      by (left; split; [reflexivity | exact Hl]).
    revert H0. generalize (count isCommandFetch (trace w)) as n.
    clear Hl. revert w.
    induction es as [|e es IH]; intros w n H0; [exact H0|].
    cbn [forallb] in Hes. apply andb_prop in Hes. destruct Hes as [He Hes].
    rewrite run_cons.
    apply IH; [exact Hes|]. now apply command_fetch_step. }
  destruct H as [[H _] | [H _]]; lia.
Qed.

Lemma one_command_in_flight_without_voice_witness :
  let env := mkEnv true true in
  let es := [EvInput "what time is it"; EvClickSend; EvInput "and the date";
             EvKeypress "Enter"; EvQuickCommand "Calculate 15 times 8";
             EvCommandFulfilled; EvClickSend] in
  (count isCommandFetch (trace (run env es (connectedWorld "")))
   <= count isCommandFetch (trace (connectedWorld "")) + 1)%nat.
Proof.
  cbv zeta.
  apply (one_command_in_flight_without_voice (mkEnv true true)
           [EvInput "what time is it"; EvClickSend; EvInput "and the date";
            EvKeypress "Enter"; EvQuickCommand "Calculate 15 times 8";
            EvCommandFulfilled; EvClickSend]
           (connectedWorld "")).
  - reflexivity.
  - vm_compute. reflexivity.
Defined.

(** ** What a run puts on the trace *)

Lemma speechOk_weaken : forall t, speechOk false t = true -> speechOk true t = true.
Proof.
  intros [|e t] H; [reflexivity|]. destruct e; cbn in *; try exact H.
  discriminate.
Qed.

Lemma speechOk_app : forall t u b,
  speechOk b t = true -> speechOk false u = true ->
  speechOk b (t ++ u)%list = true.
Proof.
  induction t as [|e t IH]; intros u b Ht Hu.
  - destruct b; [now apply speechOk_weaken | exact Hu].
  - destruct e; cbn [List.app speechOk] in *; try (now apply IH).
    apply andb_prop in Ht. destruct Ht as [Ht1 Ht2].
    rewrite Ht1. cbn [andb]. now apply IH.
Qed.

Lemma speech_step : forall env w e,
  speechOk false (trace w) = true ->
  speechOk false (trace (step env w e)) = true.
Proof.
  intros env w e H.
  destruct e; run_script; norm_trace;
    first [ exact H
          | apply speechOk_app; [exact H|];
            cbn [speechOk];
            repeat match goal with
                   | Hq : String.eqb _ _ = false |- _ => rewrite Hq
                   | Hq : negb _ = false |- _ =>
                       apply negb_false_iff in Hq
                   end;
            rewrite ?trim_Reminder; reflexivity ].
Qed.

(** X8. Along every run from the initial state, every utterance handed to
    speech synthesis is a text that is not blank and comes right after a
    [speechSynthesis.cancel()]: a new utterance always cuts off the one in
    progress. *)
Theorem utterances_follow_a_cancel :
  forall (env : Env) (es : list Event),
    speechOk false (trace (run env es initialWorld)) = true.
Proof.
  intros env es.
  apply (run_keeps env (fun w => speechOk false (trace w) = true)).
  - intros w e. apply speech_step.
  - reflexivity.
Qed.

Lemma requests_step : forall env w e,
  forallb knownRequest (trace w) = true ->
  forallb knownRequest (trace (step env w e)) = true.
Proof.
  intros env w e H.
  destruct e; run_script; norm_trace;
    first [ exact H
          | rewrite forallb_app, H; cbn;
            repeat match goal with
                   | Hq : String.eqb _ _ = false |- _ => rewrite Hq
                   end;
            first [ reflexivity | destruct (Js.toStr _); reflexivity ] ].
Qed.

(** X9. Along every run from the initial state the script issues no request
    but these: GET on the health, reminders and trigger endpoints, DELETE on
    the history and on a reminder path, and POST on the process endpoint
    with a body holding a non-empty command; none of the GET and DELETE
    requests has a body. *)
Theorem requests_are_known :
  forall (env : Env) (es : list Event),
    forallb knownRequest (trace (run env es initialWorld)) = true.
Proof.
  intros env es.
  apply (run_keeps env (fun w => forallb knownRequest (trace w) = true)).
  - intros w e. apply requests_step.
  - reflexivity.
Qed.

Lemma trace_grows : forall env w e,
  trace (step env w e)
  = (trace w ++ added (trace w) (trace (step env w e)))%list.
Proof.
  intros env w e.
  destruct e; run_script; norm_trace;
    rewrite ?added_app, ?added_same, ?app_nil_r; reflexivity.
Qed.

Lemma popup_step : forall env w e,
  count isPopup (trace (step env w e))
  = (count isPopup (trace w) + (if firesAlert e then 1 else 0))%nat.
Proof.
  intros env w e.
  destruct e;
    try (cbn [firesAlert]; run_script; count_trace; lia).
  unfold step. cbn [firesAlert handler].
  destruct (firedMessage o) as [m|] eqn:Hf.
  - rewrite (checkReminderAlerts_fired env w o m Hf), count_app.
    unfold alertEffects. destruct (hasSpeechSynthesis env); reflexivity.
  - pose proof (checkReminderAlerts_silent env w o Hf) as Hs. cbv zeta in Hs.
    pose proof (trace_grows env w (EvAlertsSettled o)) as Hg.
    unfold step in Hg. cbn [handler] in Hg.
    rewrite Hg, count_app. destruct Hs as [-> | ->]; cbn; lia.
Qed.

(** X10. Along every run, the number of popups shown is the number of poll
    responses that fired the alert: one popup per such response, with no
    deduplication, and no popup from anything else. *)
Theorem one_popup_per_fired_alert :
  forall (env : Env) (es : list Event) (w : World),
    count isPopup (trace (run env es w))
    = (count isPopup (trace w) + List.length (List.filter firesAlert es))%nat.
Proof.
  intros env es. induction es as [|e es IH]; intro w.
  - cbn. lia.
  - rewrite run_cons, IH, popup_step. cbn [List.filter].
    destruct (firesAlert e); cbn [List.length]; lia.
Qed.

(** ** Clearing the conversation *)

(** X11. When the clear request comes back with a 2xx status the history is
    emptied, both counters are reset to 0 and shown as "0", the chat is
    replaced by the welcome block and one success notification is shown.
    When it fails (rejected, or another status) the state object, the chat
    and the counters shown stay as they were and one error notification is
    shown.  Either way no request is issued and the flags, the connection
    state and the reminder cache are untouched. *)
Theorem clear_conversation_outcome :
  forall (w : World) (o : FetchOutcome),
    let w' := exec (handleClearConversation_settle o) w in
    let t := added (trace w) (trace w') in
    count isFetch t = 0%nat /\ count isToast t = 1%nat /\
    isProcessing (app w') = isProcessing (app w) /\
    isListening (app w') = isListening (app w) /\
    apiConnected (app w') = apiConnected (app w) /\
    reminders (app w') = reminders (app w) /\
    if deleteFailed o then
      app w' = app w /\ chatContainer (dom w') = chatContainer (dom w) /\
      messageCountEl (dom w') = messageCountEl (dom w) /\
      voiceCountEl (dom w') = voiceCountEl (dom w) /\
      count (isToastOf "error") t = 1%nat
    else
      conversationHistory (app w') = [] /\
      messageCount (app w') = 0 /\ voiceCount (app w') = 0 /\
      chatContainer (dom w') = [NWelcome false] /\
      messageCountEl (dom w') = option_map (fun _ => "0") (messageCountEl (dom w)) /\
      voiceCountEl (dom w') = option_map (fun _ => "0") (voiceCountEl (dom w)) /\
      count (isToastOf "success") t = 1%nat.
Proof.
  intros w o. cbv zeta.
  destruct o as [|[|] body]; cbn [deleteFailed negb];
    run_script; norm_trace; rewrite ?added_app; split_all;
    first [ reflexivity | now destruct w as [[] ? ? ?] ].
Qed.

(** ** The reminder list sync *)

(** X12. The reminder list sync asks only when connected, and never shows a
    notification nor issues a follow-up request.  A 2xx response whose body
    is a JSON object with a truthy [success] replaces the cache by its
    [reminders] (by the empty list when that is missing); any other outcome
    leaves the cache and the rendered list as they were, with at most a
    console line. *)
Theorem fetchReminders_is_quiet :
  forall (w : World) (o : FetchOutcome),
    let w0 := exec fetchReminders_start w in
    let w' := exec (fetchReminders_settle o) w in
    let t := added (trace w) (trace w') in
    added (trace w) (trace w0)
    = (if apiConnected (app w)
       then [EFetch GET (Config.API_BASE_URL ++ Config.REMINDERS) None]
       else []) /\
    count isToast t = 0%nat /\ count isFetch t = 0%nat /\
    match listedReminders o with
    | Some listed => reminders (app w') = listed
    | None =>
        reminders (app w') = reminders (app w) /\
        remindersList (dom w') = remindersList (dom w) /\
        (t = [] \/ t = [EConsole LError "Error fetching reminders:"])
    end.
Proof.
  intros w o. cbv zeta. split; [|].
  - run_script; norm_trace; rewrite ?added_app, ?added_same;
      first [reflexivity | discriminate].
  - destruct o as [|[|] [data|]]; [| destruct data | | |];
      cbn [listedReminders]; run_script; norm_trace;
      rewrite ?added_app, ?added_same; split_all;
      first [ reflexivity | now left | now right ].
Qed.

(** X13. A successful list response is rendered at once: the cache becomes
    the listed reminders and the list element holds their rendering, the
    placeholder when the list is empty or missing; nothing else changes. *)
Theorem fetchReminders_renders_the_list :
  forall (w : World) (props : list (string * value)) (rs : list Reminder.t)
         (old : string),
    remindersList (dom w) = Some old ->
    Js.truthy (Js.lookup "success" props) = true ->
    Js.or_ (Js.lookup "reminders" props) (VArr []) = cacheOf rs ->
    exec (fetchReminders_settle (Response true (Some (VObj props)))) w
    = updDom (set_remindersList (Some (renderedList rs)))
             (updApp (set_reminders (cacheOf rs)) w).
Proof.
  intros w props rs old Hel Hs Hl.
  unfold fetchReminders_settle, updateRemindersUI. unfold_monad.
  cbn [Js.getProp]. cbv beta iota. rewrite Hs. cbv beta iota.
  cbn [app dom updApp updDom reminders set_reminders remindersList fst snd].
  rewrite Hel, Hl. cbv beta iota.
  destruct rs as [|r rs].
  - reflexivity.
  - unfold cacheOf.
    cbn -[renderRows renderedList List.map].
    rewrite renderRows_cache. reflexivity.
Qed.

Lemma fetchReminders_renders_the_list_witness :
  let r := Reminder.mk 1 "5:00 PM" "drink water" in
  let body := VObj [("success", VBool true); ("reminders", cacheOf [r])] in
  let missing := VObj [("success", VBool true)] in
  let w := connectedWorld "" in
  remindersList (dom (exec (fetchReminders_settle (Response true (Some body))) w))
  = Some (rowFor r) /\
  reminders (app (exec (fetchReminders_settle (Response true (Some missing))) w))
  = VArr [] /\
  remindersList (dom (exec (fetchReminders_settle (Response true (Some missing))) w))
  = Some emptyStateHtml.
Proof.
  cbv zeta.
  assert (Hel : remindersList (dom (connectedWorld "")) = Some "")
    by (vm_compute; reflexivity).
  rewrite (fetchReminders_renders_the_list (connectedWorld "")
             [("success", VBool true);
              ("reminders", cacheOf [Reminder.mk 1 "5:00 PM" "drink water"])]
             [Reminder.mk 1 "5:00 PM" "drink water"] "" Hel eq_refl eq_refl).
  rewrite (fetchReminders_renders_the_list (connectedWorld "")
             [("success", VBool true)] [] "" Hel eq_refl eq_refl).
  split_all; vm_compute; reflexivity.
Defined.

Lemma renderRows_null : forall l, In VNull l -> renderRows l = None.
Proof.
  induction l as [|x l IH]; intros H; [contradiction|].
  cbn [renderRows]. destruct H as [-> | H].
  - reflexivity.
  - rewrite (IH H). now destruct (renderReminder x).
Qed.

(** X14. A successful list response with a [null] among its elements
    replaces the cache, but rendering throws on the [null]: the list element
    keeps its previous content and only a console line is written, so the
    cache and what is shown differ until a later fetch. *)
Theorem fetchReminders_bad_element_keeps_old_rendering :
  forall (w : World) (props : list (string * value)) (l : list value)
         (old : string),
    remindersList (dom w) = Some old ->
    Js.truthy (Js.lookup "success" props) = true ->
    Js.lookup "reminders" props = VArr l ->
    In VNull l ->
    let w' := exec (fetchReminders_settle (Response true (Some (VObj props)))) w in
    reminders (app w') = VArr l /\
    remindersList (dom w') = Some old /\
    added (trace w) (trace w') = [EConsole LError "Error fetching reminders:"].
Proof.
  intros w props l old Hel Hs Hl Hnull. cbv zeta.
  unfold fetchReminders_settle, updateRemindersUI. unfold_monad.
  cbn [Js.getProp]. cbv beta iota. rewrite Hs. cbv beta iota.
  cbn [app dom updApp updDom reminders set_reminders remindersList fst snd].
  rewrite Hel, Hl. cbn [Js.or_ Js.truthy]. cbv beta iota.
  destruct l as [|x l]; [contradiction|].
  cbn -[renderRows added].
  rewrite (renderRows_null _ Hnull).
  cbn -[added]. rewrite added_app. split_all; first [reflexivity | exact Hel].
Qed.

Lemma fetchReminders_bad_element_keeps_old_rendering_witness :
  let w := updDom (set_remindersList (Some "<p>old</p>")) (connectedWorld "") in
  let body := VObj [("success", VBool true);
                    ("reminders", VArr [VObj [("id", VNum 1)]; VNull])] in
  let w' := exec (fetchReminders_settle (Response true (Some body))) w in
  reminders (app w') = VArr [VObj [("id", VNum 1)]; VNull] /\
  remindersList (dom w') = Some "<p>old</p>".
Proof.
  cbv zeta.
  destruct (fetchReminders_bad_element_keeps_old_rendering
              (updDom (set_remindersList (Some "<p>old</p>")) (connectedWorld ""))
              [("success", VBool true);
               ("reminders", VArr [VObj [("id", VNum 1)]; VNull])]
              [VObj [("id", VNum 1)]; VNull] "<p>old</p>"
              eq_refl eq_refl eq_refl (or_intror (or_introl eq_refl)))
    as (Hc & Hr & _).
  split; [exact Hc | exact Hr].
Defined.

(** ** Deleting a reminder, when it succeeds *)

(** X15. Deleting requests DELETE on the reminder's path.  When the answer
    is 2xx a success notification is shown and the list is fetched again at
    once if the client is connected, and not fetched if it is not; the
    state object and the rendered list are not touched by the handler
    itself. *)
Theorem deleteReminder_success_refetches_when_connected :
  forall (w : World) (reminderId : value) (body : option value),
    let w0 := exec (deleteReminder_start reminderId) w in
    let w' := exec (deleteReminder_settle (Response true body)) w0 in
    added (trace w) (trace w0)
    = [EFetch DELETE
         (Config.API_BASE_URL ++ Config.REMINDERS ++ "/" ++ Js.toStr reminderId)
         None] /\
    added (trace w0) (trace w')
    = ([EToast "✅ Reminder deleted" "success";
        ESetTimeout CbToastShow 10; ESetTimeout CbToastHide 4000]
       ++ (if apiConnected (app w)
           then [EFetch GET (Config.API_BASE_URL ++ Config.REMINDERS) None]
           else []))%list /\
    app w' = app w /\ remindersList (dom w') = remindersList (dom w).
Proof.
  intros w reminderId body. cbv zeta.
  split; [unfold_script; unfold_monad; simp; now rewrite added_app|].
  set (w0 := exec (deleteReminder_start reminderId) w).
  assert (H0 : app w0 = app w /\ remindersList (dom w0) = remindersList (dom w))
    by (split; reflexivity).
  destruct H0 as [Ha Hr]. rewrite <- Ha, <- Hr. clearbody w0. clear Ha Hr.
  run_script; norm_trace; rewrite ?added_app; split_all;
    first [reflexivity | discriminate | now destruct w0 as [[] ? ? ?]].
Qed.

(** ** What the user sees of a command call *)

(** X16. What the user sees when a command call settles, whatever the HTTP
    status: for a reply, the reply as an assistant message and no
    notification; for a refusal, an error-flagged apology and one error
    notification with the server's reason, or "Processing failed" without
    one; for a rejected request, an unreadable body or [null], an
    error-flagged connectivity message and the notification "Connection
    error".  No request is issued in any case. *)
Theorem processCommand_shows_the_outcome :
  forall (w : World) (command now : string) (o : FetchOutcome),
    let w' := exec (processCommand_settle command now o) w in
    let t := added (trace w) (trace w') in
    match commandOutcome o with
    | Replied reply =>
        chatContainer (dom w')
        = (chatContainer (dom w)
           ++ [NMessage SAssistant false (escapeHtml reply)])%list /\
        count isToast t = 0%nat
    | Refused reason =>
        chatContainer (dom w')
        = (chatContainer (dom w)
           ++ [NMessage SAssistant true
                 "Sorry, I encountered an error processing your request."])%list /\
        List.filter isToast t
        = [EToast ("❌ " ++ Js.toStr (Js.or_ reason (VStr "Processing failed")))
                  "error"]
    | Failed =>
        chatContainer (dom w')
        = (chatContainer (dom w)
           ++ [NMessage SAssistant true
                 "Sorry, I could not connect to the server. Please check if the backend is running."])%list /\
        List.filter isToast t = [EToast "❌ Connection error" "error"]
    end /\
    count isFetch t = 0%nat.
Proof.
  intros w command now o. cbv zeta.
  destruct o as [|ok [data|]]; [| destruct data |];
    cbn [commandOutcome]; run_script; norm_trace;
    rewrite ?added_app, ?added_same; split_all; reflexivity.
Qed.

(** X17. A one-second refresh of the reminder list is armed exactly when
    the command succeeded and its text contains "remind" in any letter
    case; never on a failure. *)
Theorem processCommand_reminder_nudge :
  forall (w : World) (command now : string) (o : FetchOutcome),
    let w' := exec (processCommand_settle command now o) w in
    count isRefreshTimer (added (trace w) (trace w'))
    = match commandReply o with
      | Some _ =>
          if JsString.includes "remind" (JsString.toLowerCase command)
          then 1%nat else 0%nat
      | None => 0%nat
      end.
Proof.
  intros w command now o. cbv zeta.
  destruct o as [|ok [data|]]; [| destruct data |];
    cbn [commandReply]; run_script; norm_trace;
    rewrite ?added_app, ?added_same; reflexivity.
Qed.

Lemma fadeFirstWelcome_none : forall c,
  existsb isWelcome c = false -> fadeFirstWelcome c = c.
Proof.
  induction c as [|n c IH]; intro H; [reflexivity|].
  destruct n; cbn in *; [discriminate | now rewrite IH].
Qed.

(** X18. An accepted submission empties the input box, appends the trimmed
    text, escaped, as a user message, starts the fade-out of the welcome
    block, sets the processing flag, shows the busy indicator with its
    "Processing" text, shows the new message count, and shows no
    notification. *)
Theorem accepted_submission_on_screen :
  forall (w : World),
    accepts w = true ->
    let text := JsString.trim (userInputValue (dom w)) in
    let w' := exec handleSendMessage w in
    userInputValue (dom w') = "" /\
    chatContainer (dom w')
    = fadeFirstWelcome
        (chatContainer (dom w) ++ [NMessage SUser false (Js.escapeText text)])%list /\
    isProcessing (app w') = true /\
    loadingShown (dom w') = true /\ loadingText (dom w') = "🤔 Processing..." /\
    messageCountEl (dom w')
    = option_map (fun _ => JsString.of_Z (messageCount (app w) + 1))
                 (messageCountEl (dom w)) /\
    count isToast (added (trace w) (trace w')) = 0%nat.
Proof.
  intros w Hacc. cbv zeta.
  unfold accepts in Hacc.
  apply andb_prop in Hacc. destruct Hacc as [Hacc Hidle].
  apply andb_prop in Hacc. destruct Hacc as [Htext Hconn].
  apply negb_true_iff in Htext. apply negb_true_iff in Hidle.
  unfold_script; unfold_monad; simp.
  rewrite Htext; simp. rewrite Hconn; simp. rewrite Hidle; simp.
  destruct (existsb isWelcome _) eqn:Hw; simp; norm_trace;
    rewrite ?added_app; rewrite ?(fadeFirstWelcome_none _ Hw);
    split_all;
    first [ reflexivity
          | now destruct (messageCountEl (dom w))
          | symmetry; apply fadeFirstWelcome_none; exact Hw ].
Qed.

Lemma accepted_submission_on_screen_witness :
  let w := connectedWorld " <b>hi</b> " in
  let w' := exec handleSendMessage w in
  userInputValue (dom w') = "" /\
  chatContainer (dom w')
  = [NWelcome true; NMessage SUser false "&lt;b&gt;hi&lt;/b&gt;"] /\
  messageCountEl (dom w') = Some "1".
Proof.
  cbv zeta.
  assert (Hacc : accepts (connectedWorld " <b>hi</b> ") = true)
    by (vm_compute; reflexivity).
  destruct (accepted_submission_on_screen (connectedWorld " <b>hi</b> ") Hacc)
    as (Hi & Hc & _ & _ & _ & Hm & _).
  split; [exact Hi|]. split.
  - rewrite Hc. vm_compute. reflexivity.
  - rewrite Hm. vm_compute. reflexivity.
Defined.

(** ** The microphone warning of the health check *)

(** X19. A health response with a JSON object connects the client, and
    shows one notification, a warning, exactly when the microphone status is
    "not detected"; the status is read from [components.microphone] when
    that is truthy, from the top-level [microphone] otherwise. *)
Theorem checkAPIHealth_microphone_warning :
  forall (w : World) (props : list (string * value)),
    let w' := exec (checkAPIHealth_settle (Response true (Some (VObj props)))) w in
    let t := added (trace w) (trace w') in
    apiConnected (app w') = true /\
    count isToast t = (if isNotDetected (micStatusOf props) then 1 else 0)%nat /\
    count (isToastOf "warning") t
    = (if isNotDetected (micStatusOf props) then 1 else 0)%nat.
Proof.
  intros w props. cbv zeta. unfold micStatusOf, Js.or_, Js.and_.
  unfold_script; unfold_monad; simp.
  destruct (Js.truthy (Js.lookup "components" props)) eqn:Hc; simp.
  - destruct (Js.getProp (Js.lookup "components" props) "microphone") as [m|] eqn:Hm;
      [|exfalso; eapply getProp_truthy; eassumption].
    simp. destruct (Js.truthy m) eqn:Htm; simp;
      destruct (isNotDetected _) eqn:Hn; simp; norm_trace;
      rewrite ?added_app, ?added_same; split_all; reflexivity.
  - rewrite Hc. simp.
    destruct (isNotDetected _) eqn:Hn; simp; norm_trace;
      rewrite ?added_app, ?added_same; split_all; reflexivity.
Qed.

(** ** Escaping *)

Lemma noAngle_String : forall c s,
  noAngle (String c s)
  = negb (JsString.byte_is 60 c || JsString.byte_is 62 c) && noAngle s.
Proof. reflexivity. Qed.

Lemma escapeText_noAngle_upto : forall n s,
  (String.length s <= n)%nat -> noAngle (Js.escapeText s) = true.
Proof.
  induction n as [|n IH]; intros s Hn.
  - destruct s; [reflexivity | cbn in Hn; lia].
  - destruct s as [|c r]; [reflexivity|].
    cbn [String.length] in Hn. cbn [Js.escapeText].
    destruct (JsString.byte_is 38 c); [apply (IH r); lia|].
    destruct (JsString.byte_is 60 c) eqn:E60; [apply (IH r); lia|].
    destruct (JsString.byte_is 62 c) eqn:E62; [apply (IH r); lia|].
    destruct r as [|d r'].
    + rewrite noAngle_String, E60, E62. reflexivity.
    + destruct (JsString.byte_is 194 c && JsString.byte_is 160 d).
      * apply (IH r'). cbn [String.length] in Hn. lia.
      * rewrite noAngle_String, E60, E62. cbn [orb negb andb].
        apply (IH (String d r')). lia.
Qed.

Lemma escapeText_noAngle : forall s, noAngle (Js.escapeText s) = true.
Proof.
  intro s. apply escapeText_noAngle_upto with (n := String.length s). lia.
Qed.

(** X20. The result of [escapeHtml] holds no angle bracket, whatever value
    it is given. *)
Theorem escapeHtml_leaves_no_angle_bracket :
  forall (text : value), noAngle (escapeHtml text) = true.
Proof.
  intro text. unfold escapeHtml. apply escapeText_noAngle.
Qed.

(** X21. [escapeHtml] returns a text unchanged when it holds no ampersand,
    no angle bracket and no no-break space; other characters outside ASCII
    are left alone. *)
Theorem escapeHtml_keeps_plain_text :
  forall (s : string), plainText s = true -> escapeHtml (VStr s) = s.
Proof.
  intros s. unfold escapeHtml. cbn [Js.textContentOf Js.toStr].
  induction s as [|c r IH]; intro H; [reflexivity|].
  cbn [plainText] in H.
  apply andb_prop in H. destruct H as [H Hr].
  apply andb_prop in H. destruct H as [Hc Hn].
  apply negb_true_iff in Hc. apply negb_true_iff in Hn.
  apply orb_false_iff in Hc. destruct Hc as [Hc H62].
  apply orb_false_iff in Hc. destruct Hc as [H38 H60].
  cbn [Js.escapeText]. rewrite H38, H60, H62.
  destruct r as [|d r']; [reflexivity|].
  rewrite Hn. f_equal. apply IH. exact Hr.
Qed.

Lemma escapeHtml_keeps_plain_text_witness :
  escapeHtml (VStr "25°C, café") = "25°C, café".
Proof. apply escapeHtml_keeps_plain_text. reflexivity. Defined.

Lemma nodeSafe_fade : forall c,
  forallb nodeSafe (fadeFirstWelcome c) = forallb nodeSafe c.
Proof.
  induction c as [|n c IH]; [reflexivity|].
  destruct n; cbn [fadeFirstWelcome forallb nodeSafe]; [reflexivity|].
  now rewrite IH.
Qed.

Lemma chat_safe_step : forall env w e,
  forallb nodeSafe (chatContainer (dom w)) = true ->
  forallb nodeSafe (chatContainer (dom (step env w e))) = true.
Proof.
  intros env w e H.
  destruct e; run_script;
    rewrite ?nodeSafe_fade, ?forallb_app, ?nodeSafe_fade; rewrite ?H;
    cbn [forallb nodeSafe andb]; unfold escapeHtml;
    rewrite ?escapeText_noAngle; reflexivity.
Qed.

(** X22. Along every run from the initial state no message of the chat
    holds an angle bracket: what the user types or says and what the server
    replies reach the chat as text, never as markup. *)
Theorem chat_messages_hold_no_markup :
  forall (env : Env) (es : list Event),
    forallb nodeSafe (chatContainer (dom (run env es initialWorld))) = true.
Proof.
  intros env es.
  apply (run_keeps env (fun w => forallb nodeSafe (chatContainer (dom w)) = true)).
  - intros w e. apply chat_safe_step.
  - reflexivity.
Qed.

(** ** The voice flow *)

(** X23. A recognition result with a blank transcript gives one warning,
    hides the busy indicator and changes nothing else.  Any other transcript
    adds one to the message counter and one to the voice counter, appends
    the trimmed transcript as a user message and sends it as the one
    request of the turn, with the processing flag set and the busy
    indicator shown. *)
Theorem onresult_counts_and_forwards :
  forall (w : World) (raw : string),
    let text := JsString.trim raw in
    let w' := exec (onresult_start raw) w in
    let t := added (trace w) (trace w') in
    if String.eqb text "" then
      app w' = app w /\ loadingShown (dom w') = false /\
      chatContainer (dom w') = chatContainer (dom w) /\
      count isFetch t = 0%nat /\
      count isToast t = 1%nat /\ count (isToastOf "warning") t = 1%nat
    else
      messageCount (app w') = messageCount (app w) + 1 /\
      voiceCount (app w') = voiceCount (app w) + 1 /\
      isProcessing (app w') = true /\ loadingShown (dom w') = true /\
      chatContainer (dom w')
      = (fadeFirstWelcome (chatContainer (dom w))
         ++ [NMessage SUser false (Js.escapeText text)])%list /\
      count isFetch t = 1%nat /\
      In (EFetch POST (Config.API_BASE_URL ++ Config.PROCESS)
                 (Some (VObj [("command", VStr text)]))) t /\
      count isToast t = 0%nat.
Proof.
  intros w raw. cbv zeta.
  unfold_script; unfold_monad; simp.
  destruct (String.eqb (JsString.trim raw) "") eqn:Hraw; simp.
  - norm_trace. rewrite added_app. split_all; reflexivity.
  - destruct (existsb isWelcome (chatContainer (dom w))) eqn:Hw; simp;
      norm_trace; rewrite added_app;
      rewrite ?(fadeFirstWelcome_none _ Hw);
      split_all; first [reflexivity | cbn; tauto].
Qed.

Lemma lastOf_snoc : forall (A : Type) (l : list A) (x : A),
  lastOf (l ++ [x])%list = Some x.
Proof.
  induction l as [|a l IH]; intro x; [reflexivity|].
  cbn [List.app lastOf]. rewrite IH.
  destruct (l ++ [x])%list eqn:E; [|reflexivity].
  now destruct l.
Qed.

Lemma nonblank_nonempty : forall s,
  String.eqb (JsString.trim s) "" = false -> String.eqb s "" = false.
Proof.
  intros s H. destruct s; [discriminate H | reflexivity].
Qed.

(** What [onresult_resume] adds when the last turn holds a text that is not
    blank and the platform can speak. *)
Lemma onresult_resume_speaks : forall env w t s,
  hasSpeechSynthesis env = true ->
  lastOf (conversationHistory (app w)) = Some t ->
  assistant t = VStr s ->
  String.eqb (JsString.trim s) "" = false ->
  added (trace w) (trace (exec (onresult_resume env) w))
  = [ESpeechCancel; ESpeak s].
Proof.
  intros env w t s Hsyn Hlast Hs Hnb.
  unfold_script; unfold_monad; simp.
  rewrite Hlast; simp. rewrite Hs; simp.
  rewrite (nonblank_nonempty _ Hnb); simp.
  rewrite Hsyn; simp. rewrite Hnb; simp.
  norm_trace. now rewrite added_app.
Qed.

(** X24. When a voice command succeeds with a reply that is not blank, and
    the platform has speech synthesis, the reply is spoken once the call has
    settled. *)
Theorem voice_reply_is_spoken :
  forall (env : Env) (w : World) (command now : string) (o : FetchOutcome)
         (reply : string),
    hasSpeechSynthesis env = true ->
    commandReply o = Some (VStr reply) ->
    String.eqb (JsString.trim reply) "" = false ->
    let w1 := exec (processCommand_settle command now o) w in
    let w2 := exec (onresult_resume env) w1 in
    added (trace w1) (trace w2) = [ESpeechCancel; ESpeak reply].
Proof.
  intros env w command now o reply Hsyn Hr Hnb. cbv zeta.
  pose proof (processCommand_settle_state w command now o) as H.
  cbv zeta in H. destruct H as (_ & _ & Hh). rewrite Hr in Hh.
  apply onresult_resume_speaks with (t := mkTurn command (VStr reply) now);
    try assumption; [|reflexivity].
  rewrite Hh. apply lastOf_snoc.
Qed.

Lemma voice_reply_is_spoken_witness :
  let env := mkEnv true true in
  let o := Response true (Some (VObj [("success", VBool true);
                                      ("response", VStr "Reminder set")])) in
  let w1 := exec (processCommand_settle "set a reminder" "t0" o) initialWorld in
  let w2 := exec (onresult_resume env) w1 in
  added (trace w1) (trace w2) = [ESpeechCancel; ESpeak "Reminder set"].
Proof.
  cbv zeta.
  apply (voice_reply_is_spoken (mkEnv true true) initialWorld
           "set a reminder" "t0"
           (Response true (Some (VObj [("success", VBool true);
                                       ("response", VStr "Reminder set")])))
           "Reminder set"); reflexivity.
Defined.

(** X25. When a voice command fails, the history is unchanged and the voice
    flow speaks the assistant text of the last turn there is: the reply to
    the previous successful command is said again. *)
Theorem voice_failure_repeats_the_previous_reply :
  forall (env : Env) (w : World) (command now : string) (o : FetchOutcome)
         (previous : Turn) (said : string),
    hasSpeechSynthesis env = true ->
    commandReply o = None ->
    lastOf (conversationHistory (app w)) = Some previous ->
    assistant previous = VStr said ->
    String.eqb (JsString.trim said) "" = false ->
    let w1 := exec (processCommand_settle command now o) w in
    let w2 := exec (onresult_resume env) w1 in
    conversationHistory (app w1) = conversationHistory (app w) /\
    added (trace w1) (trace w2) = [ESpeechCancel; ESpeak said].
Proof.
  intros env w command now o previous said Hsyn Hr Hlast Hs Hnb. cbv zeta.
  pose proof (processCommand_settle_state w command now o) as H.
  cbv zeta in H. destruct H as (_ & _ & Hh). rewrite Hr in Hh.
  split; [exact Hh|].
  apply onresult_resume_speaks with (t := previous); try assumption.
  now rewrite Hh.
Qed.

Lemma voice_failure_repeats_the_previous_reply_witness :
  let env := mkEnv true true in
  let w := updApp (set_conversationHistory
                     [mkTurn "what time is it" (VStr "It is 10:00 AM") "t0"])
                  initialWorld in
  let w1 := exec (processCommand_settle "tell me a joke" "t1" NetworkError) w in
  let w2 := exec (onresult_resume env) w1 in
  added (trace w1) (trace w2) = [ESpeechCancel; ESpeak "It is 10:00 AM"].
Proof.
  cbv zeta.
  apply (voice_failure_repeats_the_previous_reply (mkEnv true true)
           (updApp (set_conversationHistory
                      [mkTurn "what time is it" (VStr "It is 10:00 AM") "t0"])
                   initialWorld)
           "tell me a joke" "t1" NetworkError
           (mkTurn "what time is it" (VStr "It is 10:00 AM") "t0")
           "It is 10:00 AM"); reflexivity.
Defined.

(** X26. A recognition error hides the busy indicator and shows exactly one
    notification, a warning for "no-speech" and "audio-capture" and an
    error for anything else, without touching the state object or issuing a
    request.  The end of a session clears the listening flag and the
    button's mark and leaves the busy indicator hidden, without any effect
    on the outside and without touching the processing flag. *)
Theorem voice_session_cleanup :
  forall (w : World) (error : string),
    let we := exec (onerror error) w in
    let te := added (trace w) (trace we) in
    let wd := exec onend w in
    (loadingShown (dom we) = false /\ app we = app w /\
     count isFetch te = 0%nat /\ count isToast te = 1%nat /\
     count (isToastOf "warning") te
     = (if isCaptureTrouble error then 1 else 0)%nat /\
     count (isToastOf "error") te
     = (if isCaptureTrouble error then 0 else 1)%nat) /\
    (isListening (app wd) = false /\ voiceBtnListening (dom wd) = false /\
     loadingShown (dom wd) = false /\ trace wd = trace w /\
     isProcessing (app wd) = isProcessing (app w)).
Proof.
  intros w error. cbv zeta. unfold isCaptureTrouble. split.
  - unfold_script; unfold_monad; simp.
    destruct (String.eqb error "no-speech"); simp;
      [|destruct (String.eqb error "audio-capture"); simp];
      norm_trace; rewrite added_app; split_all;
      first [reflexivity | now destruct w as [[] ? ? ?]].
  - run_script; split_all; first [reflexivity | assumption | congruence].
Qed.

(** X27. With speech recognition available and the client connected, a
    click on the voice button while listening only shows a warning; when
    [recognition.start()] throws, the listening flag, the button and the
    busy indicator are put back and one error notification is shown;
    otherwise the session starts: flag and button set, busy indicator shown
    with its "Listening" text, and [recognition.start()] the only effect. *)
Theorem voice_capture_start :
  forall (env : Env) (w : World) (startThrows : bool),
    hasSpeechRecognition env = true ->
    apiConnected (app w) = true ->
    let w' := exec (handleVoiceInput env startThrows) w in
    let t := added (trace w) (trace w') in
    if isListening (app w) then
      app w' = app w /\ loadingShown (dom w') = loadingShown (dom w) /\
      count isRecognitionStart t = 0%nat /\
      count (isToastOf "warning") t = 1%nat
    else if startThrows then
      isListening (app w') = false /\ voiceBtnListening (dom w') = false /\
      loadingShown (dom w') = false /\
      count isRecognitionStart t = 0%nat /\
      count (isToastOf "error") t = 1%nat
    else
      isListening (app w') = true /\ voiceBtnListening (dom w') = true /\
      loadingShown (dom w') = true /\
      loadingText (dom w') = "🎤 Listening... Speak now" /\
      recognition w' = true /\
      t = [ERecognitionStart].
Proof.
  intros env w startThrows Hrec Hconn. cbv zeta.
  unfold_script; unfold_monad; simp.
  rewrite Hrec; simp. rewrite Hconn; simp.
  destruct (isListening (app w)) eqn:Hl; simp.
  - norm_trace. rewrite added_app. split_all; reflexivity.
  - destruct (recognition w) eqn:Hr; simp; rewrite ?Hrec; simp;
      destruct startThrows; simp; norm_trace;
      rewrite ?added_app; split_all; first [reflexivity | assumption].
Qed.

Lemma voice_capture_start_witness :
  let env := mkEnv true true in
  let w := connectedWorld "" in
  let w' := exec (handleVoiceInput env false) w in
  isListening (app w') = true /\
  added (trace w) (trace w') = [ERecognitionStart].
Proof.
  cbv zeta.
  assert (Hc : apiConnected (app (connectedWorld "")) = true)
    by (vm_compute; reflexivity).
  pose proof (voice_capture_start (mkEnv true true) (connectedWorld "") false
                eq_refl Hc) as H.
  cbv zeta in H.
  assert (Hl : isListening (app (connectedWorld "")) = false)
    by (vm_compute; reflexivity).
  rewrite Hl in H. destruct H as (H1 & _ & _ & _ & _ & H2).
  split; [exact H1 | exact H2].
Defined.

(** ** Rendering the reminder list, by the markup written *)

Example readLiteral_ex :
  readLiteral "7" = Some (VNum 7) /\ readLiteral "-12" = Some (VNum (-12)) /\
  readLiteral "'abc'" = Some (VStr "abc") /\ readLiteral "010" = None /\
  readLiteral "abc" = None /\ readLiteral "a1b2-c3" = None.
Proof. split_all; reflexivity. Qed.










